(** * SpecForge: the C4 diagram synthesis engine ([C4Service])

    A shallow embedding of [C4Service] (backend service that turns a list of
    requirements into System Context / Container / Component diagrams) and
    the properties of it that the specification states.

    Conventions of the embedding.
    - JavaScript strings are [string]s of bytes; [toLowerCase] and [trim]
      act on the ASCII range.
    - A value that the code reads without checking and that a parsed JSON
      document may lack is an [option]; reading a property of a missing
      object, or calling a method of a missing array, raises [TypeError].
    - A JavaScript object used as a map is the list of its own enumerable
      properties in [Object.keys] order ([JsObject]); a property read falls
      back to [Object.prototype] as in the language.
    - Code that throws returns [Throw]; code that also talks to the language
      model or to the file system runs in the monad [M] over [World].
    - [console.log] and [console.error] are not modelled. *)

From Stdlib Require Import Ascii.
From stdpp Require Import base option list strings gmap.

(** ** JavaScript string primitives *)

Module Js.

Definition LF : ascii := "010"%char.
Definition nl : string := String LF "".

(** A string between double quotes, as the template literals write it. *)
Definition dq : string := String "034"%char "".
Definition quoted (s : string) : string := dq +:+ s +:+ dq.

Definition lower_ascii (c : ascii) : ascii :=
  let n := nat_of_ascii c in
  if (65 <=? n)%nat && (n <=? 90)%nat then ascii_of_nat (n + 32) else c.

Fixpoint toLowerCase (s : string) : string :=
  match s with
  | EmptyString => EmptyString
  | String c s' => String (lower_ascii c) (toLowerCase s')
  end.

(** [s.startsWith(p)] *)
Fixpoint startsWith (s p : string) {struct p} : bool :=
  match p, s with
  | EmptyString, _ => true
  | String a p', String b s' => if Ascii.eqb a b then startsWith s' p' else false
  | String _ _, EmptyString => false
  end.

(** [s.includes(k)] *)
Fixpoint includes (s k : string) {struct s} : bool :=
  startsWith s k ||
  match s with
  | EmptyString => false
  | String _ s' => includes s' k
  end.

(** [k] occurs in [s]: what [s.includes(k)] decides. *)
Definition isSubstring (k s : string) : Prop :=
  ∃ pre post, s = pre +:+ k +:+ post.

Fixpoint skip (n : nat) (s : string) : string :=
  match n, s with
  | S n', String _ s' => skip n' s'
  | _, _ => s
  end.

Definition is_space (c : ascii) : bool :=
  match c with
  | "009" | "010" | "011" | "012" | "013" | " " => true
  | _ => false
  end%char.

Fixpoint trimStart (s : string) : string :=
  match s with
  | String c s' => if is_space c then trimStart s' else s
  | EmptyString => EmptyString
  end.

Fixpoint trimEnd (s : string) : string :=
  match s with
  | EmptyString => EmptyString
  | String c s' =>
      match trimEnd s' with
      | EmptyString => if is_space c then EmptyString else String c EmptyString
      | t => String c t
      end
  end.

Definition trim (s : string) : string := trimEnd (trimStart s).

(** [s.replace(/pat\n?/g, '')] for a non-empty literal [pat]: [pending] is
    [Some n] while [n] more characters of a match remain to be dropped,
    and [Some 0] right after a match, where one line feed is dropped. *)
Fixpoint removeAll (pat : string) (pending : option nat) (s : string) : string :=
  match s with
  | EmptyString => EmptyString
  | String c s' =>
      let scan :=
        if startsWith s pat
        then removeAll pat (Some (String.length pat - 1)) s'
        else String c (removeAll pat None s') in
      match pending with
      | Some (S n) => removeAll pat (Some n) s'
      | Some O => if Ascii.eqb c LF then removeAll pat None s' else scan
      | None => scan
      end
  end.

(** The expansion of a replacement string ([GetSubstitution]) for a
    pattern without capture groups. *)
Fixpoint getSubstitution (matched before after repl : string) : string :=
  match repl with
  | EmptyString => EmptyString
  | String "$" (String "$" r) => "$" +:+ getSubstitution matched before after r
  | String "$" (String "&" r) => matched +:+ getSubstitution matched before after r
  | String "$" (String "`" r) => before +:+ getSubstitution matched before after r
  | String "$" (String "'" r) => after +:+ getSubstitution matched before after r
  | String c r => String c (getSubstitution matched before after r)
  end%char.

(** [s.replace(/pat/g, repl)] for a non-empty literal [pat]; [before] is
    the part of the subject already scanned. *)
Fixpoint replaceAll (pat repl before : string) (pending : nat) (s : string) : string :=
  match s with
  | EmptyString => EmptyString
  | String c s' =>
      let before' := before +:+ String c "" in
      match pending with
      | S n => replaceAll pat repl before' n s'
      | O =>
          if startsWith s pat
          then getSubstitution pat before (skip (String.length pat) s) repl
               +:+ replaceAll pat repl before' (String.length pat - 1) s'
          else String c (replaceAll pat repl before' 0 s')
      end
  end.

(** [xs.join(sep)] *)
Fixpoint join (sep : string) (xs : list string) : string :=
  match xs with
  | [] => ""
  | [x] => x
  | x :: xs' => x +:+ sep +:+ join sep xs'
  end.

(** Truthiness of an optional string: [undefined] and [''] are falsy. *)
Definition truthy (o : option string) : bool :=
  match o with
  | Some s => negb (String.eqb s "")
  | None => false
  end.

(** [a || b] on optional strings. *)
Definition or (a b : option string) : option string :=
  if truthy a then a else b.

(** A JavaScript object used as a map: its own enumerable properties, in
    [Object.keys] order. *)
Definition JsObject (A : Type) : Type := list (string * A).

Definition keys {A} (o : JsObject A) : list string := o.*1.

Fixpoint own {A} (o : JsObject A) (k : string) : option A :=
  match o with
  | [] => None
  | (k', v) :: o' => if String.eqb k' k then Some v else own o' k
  end.

(** The property names every object inherits from [Object.prototype]. *)
Definition prototype_keys : list string :=
  [ "constructor"; "__defineGetter__"; "__defineSetter__"; "hasOwnProperty";
    "__lookupGetter__"; "__lookupSetter__"; "isPrototypeOf";
    "propertyIsEnumerable"; "toString"; "valueOf"; "__proto__";
    "toLocaleString" ].

(** The outcome of [o[k]]: an own property, an inherited one (a function
    or the prototype object, never an array), or [undefined]. *)
Inductive Lookup (A : Type) : Type :=
| Own (a : A)
| Inherited
| Undefined.
Arguments Own {A} a.
Arguments Inherited {A}.
Arguments Undefined {A}.

Definition get {A} (o : JsObject A) (k : string) : Lookup A :=
  match own o k with
  | Some v => Own v
  | None => if existsb (String.eqb k) prototype_keys then Inherited else Undefined
  end.

End Js.

(** ** Exceptions *)

Inductive Error : Type :=
| PromptNotFound   (* [new Error('Architecture prompt not found')] *)
| ServiceError     (* the chat completion call rejected *)
| SyntaxError      (* [JSON.parse] *)
| IOError          (* [fs.readFileSync] on something that is not a file *)
| TypeError.       (* property read or method call on [undefined] *)

Inductive Result (A : Type) : Type :=
| Ok (a : A)
| Throw (e : Error).
Arguments Ok {A} a.
Arguments Throw {A} e.

#[global] Instance result_ret : MRet Result := @Ok.
#[global] Instance result_bind : MBind Result := λ A B f r,
  match r with
  | Ok a => f a
  | Throw e => Throw e
  end.

(** Reading a value that must be there. *)
Definition required {A} (o : option A) : Result A :=
  match o with
  | Some a => Ok a
  | None => Throw TypeError
  end.

(** [xs.map(f)] for a callback that may throw. *)
Fixpoint mapR {A B} (f : A → Result B) (xs : list A) : Result (list B) :=
  match xs with
  | [] => Ok []
  | x :: xs' => y ← f x; ys ← mapR f xs'; Ok (y :: ys)
  end.

(** ** Data model *)

(** [Requirement] (imported by the service from its [types] module): the
    fields the service reads. *)
Record Requirement : Type := {
  req_id : string;
  req_type : string;
  req_title : string;
  req_description : string;
  req_rationale : option string
}.

Record ArchitecturePerson : Type := {
  person_id : string;
  person_name : string;
  person_role : string;
  person_description : string;
  person_interactions : list string
}.

Record ArchitectureExternalSystem : Type := {
  ext_id : string;
  ext_name : string;
  ext_type : string;
  ext_description : string;
  ext_protocol : option string;
  ext_dataFormat : option string
}.

(** The optional [exposes], [stores] and [nonFunctional] fields are never
    read by the service and are left out. *)
Record ArchitectureContainer : Type := {
  cont_id : string;
  cont_name : string;
  cont_type : string;
  cont_technology : string;
  cont_description : string;
  cont_responsibilities : list string;
  cont_dependencies : option (list string)
}.

Record ArchitectureComponent : Type := {
  comp_id : string;
  comp_name : string;
  comp_type : string;
  comp_technology : string;
  comp_description : string;
  comp_capabilities : list string;
  comp_dependencies : list string
}.

Record ArchitectureRelationship : Type := {
  rel_from : string;
  rel_to : string;
  rel_label : string;
  rel_protocol : option string;
  rel_dataFlow : option string;
  rel_async : option bool;
  rel_pattern : option string
}.

Record ArchitectureSystem : Type := {
  sys_name : string;
  sys_description : string;
  sys_scope : string
}.

(** The document handed back by [JSON.parse] is used as an
    [ExtractedArchitecture] without any check, so the objects and arrays
    the builders reach into may be missing. *)
Record Level1Context : Type := {
  ctx_system : option ArchitectureSystem;
  ctx_people : option (list ArchitecturePerson);
  ctx_external_systems : option (list ArchitectureExternalSystem);
  ctx_relationships : option (list ArchitectureRelationship)
}.

Record ExtractedArchitecture : Type := {
  level1_context : option Level1Context;
  level2_containers : option (list ArchitectureContainer);
  level2_relationships : option (list ArchitectureRelationship);
  level3_components : option (Js.JsObject (list ArchitectureComponent));
  level3_relationships : option (Js.JsObject (list ArchitectureRelationship))
}.

(** The [type] tag of an element: ['person' | 'system' | 'container' | 'component']. *)
Inductive ElementType : Type := ty_person | ty_system | ty_container | ty_component.

#[global] Instance ElementType_eq_dec : EqDecision ElementType.
Proof. solve_decision. Defined.

Record C4Element : Type := {
  el_id : string;
  el_type : ElementType;
  el_name : string;
  el_description : string;
  el_technology : option string;
  el_requirements : list string;
  el_children : option (list string)
}.

Record C4Relationship : Type := {
  c4rel_from : string;
  c4rel_to : string;
  c4rel_label : string;
  c4rel_technology : option string
}.

Inductive DiagramType : Type := context_diagram | container_diagram | component_diagram.

Record C4Diagram : Type := {
  d_id : string;
  d_level : nat;
  d_type : DiagramType;
  d_title : string;
  d_description : string;
  d_mermaidCode : string;
  d_elements : list C4Element;
  d_relationships : list C4Relationship;
  d_requirementReferences : list string;
  d_generatedAt : string;
  d_parentId : option string
}.

(** ** Mermaid rendering *)

(** The technology suffix of a line, written only for a truthy value. *)
Definition techSuffix (technology : option string) : string :=
  if Js.truthy technology then ", " +:+ Js.quoted (default "" technology) else "".

Definition relLine (rel : C4Relationship) : string :=
  "  Rel(" +:+ c4rel_from rel +:+ ", " +:+ c4rel_to rel +:+ ", "
    +:+ Js.quoted (c4rel_label rel) +:+ techSuffix (c4rel_technology rel)
    +:+ ")" +:+ Js.nl.

Definition extLine (el : C4Element) : string :=
  "  System_Ext(" +:+ el_id el +:+ ", " +:+ Js.quoted (el_name el) +:+ ", "
    +:+ Js.quoted (el_description el) +:+ techSuffix (el_technology el)
    +:+ ")" +:+ Js.nl.

(** [xs.forEach(x => { mermaid += f(x) })] *)
Definition concatMap {A} (f : A → string) (xs : list A) : string :=
  foldr (λ x acc, f x +:+ acc) "" xs.

Definition isType (t : ElementType) (e : C4Element) : bool :=
  bool_decide (el_type e = t).

Definition isMainSystem (e : C4Element) : bool :=
  isType ty_system e && String.eqb (el_id e) "main-system".

Definition generateMermaidLevel1
    (elements : list C4Element) (relationships : list C4Relationship) : string :=
  "C4Context" +:+ Js.nl +:+
  "  title System Context Diagram" +:+ Js.nl +:+ Js.nl +:+
  match find isMainSystem elements with
  | Some mainSystem =>
      "  System(" +:+ el_id mainSystem +:+ ", " +:+ Js.quoted (el_name mainSystem)
        +:+ ", " +:+ Js.quoted (el_description mainSystem) +:+ ")" +:+ Js.nl +:+ Js.nl
  | None => ""
  end +:+
  concatMap (λ el, "  Person(" +:+ el_id el +:+ ", " +:+ Js.quoted (el_name el) +:+ ", "
                     +:+ Js.quoted (el_description el) +:+ ")" +:+ Js.nl)
            (filter (λ e, isType ty_person e) elements) +:+
  concatMap extLine
            (filter (λ e, isType ty_system e && negb (String.eqb (el_id e) "main-system"))
                    elements) +:+
  Js.nl +:+
  concatMap relLine relationships.

Definition generateMermaidLevel2
    (elements : list C4Element) (relationships : list C4Relationship) : string :=
  "C4Container" +:+ Js.nl +:+
  "  title Container Diagram" +:+ Js.nl +:+ Js.nl +:+
  "  System_Boundary(system, " +:+ Js.quoted "System" +:+ ") {" +:+ Js.nl +:+
  concatMap (λ el,
               let tech := default "Technology" (Js.or (el_technology el) (Some "Technology")) in
               "    Container(" +:+ el_id el +:+ ", " +:+ Js.quoted (el_name el) +:+ ", "
                 +:+ Js.quoted tech +:+ ", " +:+ Js.quoted (el_description el)
                 +:+ ")" +:+ Js.nl)
            (filter (λ e, isType ty_container e) elements) +:+
  "  }" +:+ Js.nl +:+ Js.nl +:+
  concatMap extLine (filter (λ e, isType ty_system e) elements) +:+
  Js.nl +:+
  concatMap relLine relationships.

Definition generateMermaidLevel3 (containerName : string)
    (elements : list C4Element) (relationships : list C4Relationship) : string :=
  "C4Component" +:+ Js.nl +:+
  "  title Component Diagram - " +:+ containerName +:+ Js.nl +:+ Js.nl +:+
  "  Container_Boundary(container, " +:+ Js.quoted containerName +:+ ") {" +:+ Js.nl +:+
  concatMap (λ el,
               let tech := default "Component" (Js.or (el_technology el) (Some "Component")) in
               "    Component(" +:+ el_id el +:+ ", " +:+ Js.quoted (el_name el) +:+ ", "
                 +:+ Js.quoted tech +:+ ", " +:+ Js.quoted (el_description el)
                 +:+ ")" +:+ Js.nl)
            elements +:+
  "  }" +:+ Js.nl +:+ Js.nl +:+
  concatMap relLine relationships.


(** ** The level builders *)

(** The traceability test of the container and component builders: the
    lower-cased keyword occurs in the lower-cased title or description. *)
Definition matchesKeyword (r : Requirement) (k : string) : bool :=
  Js.includes (Js.toLowerCase (req_title r)) (Js.toLowerCase k) ||
  Js.includes (Js.toLowerCase (req_description r)) (Js.toLowerCase k).

(** [requirements.filter(r => keywords.some(k => ...)).map(r => r.id)] *)
Definition tracedRequirements (requirements : list Requirement) (keywords : list string)
    : list string :=
  req_id <$> filter (λ r, existsb (matchesKeyword r) keywords) requirements.

Definition systemId : string := "main-system".

Definition personElement (p : ArchitecturePerson) : C4Element :=
  {| el_id := person_id p;
     el_type := ty_person;
     el_name := person_name p;
     el_description := person_role p +:+ ": " +:+ person_description p;
     el_technology := None;
     el_requirements := [];
     el_children := None |}.

Definition externalElement (sys : ArchitectureExternalSystem) : C4Element :=
  {| el_id := ext_id sys;
     el_type := ty_system;
     el_name := ext_name sys;
     el_description := ext_description sys;
     el_technology := ext_protocol sys;
     el_requirements := [];
     el_children := None |}.

(** The element of the system itself, the first of the context diagram. *)
Definition systemElement (sys : ArchitectureSystem) (containers : list ArchitectureContainer)
    (requirements : list Requirement) : C4Element :=
  {| el_id := systemId;
     el_type := ty_system;
     el_name := sys_name sys;
     el_description := sys_description sys;
     el_technology := None;
     el_requirements := req_id <$> requirements;
     el_children := Some (cont_id <$> containers) |}.

(** The relationship records of the three levels. *)
Definition level1Relationship (rel : ArchitectureRelationship) : C4Relationship :=
  {| c4rel_from := rel_from rel;
     c4rel_to := if String.eqb (rel_to rel) "system" then systemId else rel_to rel;
     c4rel_label := rel_label rel;
     c4rel_technology := rel_protocol rel |}.

Definition level2Relationship (rel : ArchitectureRelationship) : C4Relationship :=
  {| c4rel_from := rel_from rel;
     c4rel_to := rel_to rel;
     c4rel_label := rel_label rel;
     c4rel_technology := Js.or (rel_protocol rel) (rel_dataFlow rel) |}.

Definition level3Relationship (rel : ArchitectureRelationship) : C4Relationship :=
  {| c4rel_from := rel_from rel;
     c4rel_to := rel_to rel;
     c4rel_label := rel_label rel;
     c4rel_technology := rel_pattern rel |}.

Section Builders.

(** [new Date().toISOString()] at the time of the run. *)
Variable now : string.

Definition buildLevel1Diagram (arch : ExtractedArchitecture)
    (requirements : list Requirement) : Result C4Diagram :=
  ctx ← required (level1_context arch);
  sys ← required (ctx_system ctx);
  containers ← required (level2_containers arch);
  people ← required (ctx_people ctx);
  external_systems ← required (ctx_external_systems ctx);
  rels ← required (ctx_relationships ctx);
  let elements :=
    systemElement sys containers requirements
    :: (personElement <$> people) ++ (externalElement <$> external_systems) in
  let relationships := level1Relationship <$> rels in
  Ok {| d_id := "level1-context";
        d_level := 1;
        d_type := context_diagram;
        d_title := "System Context Diagram";
        d_description := sys_scope sys;
        d_mermaidCode := generateMermaidLevel1 elements relationships;
        d_elements := elements;
        d_relationships := relationships;
        d_requirementReferences := req_id <$> requirements;
        d_generatedAt := now;
        d_parentId := None |}.

(** [arch.level3_components[container.id]?.map(c => c.id) || []] *)
Definition childrenOf (arch : ExtractedArchitecture) (containerId : string)
    : Result (list string) :=
  components ← required (level3_components arch);
  match Js.get components containerId with
  | Js.Own cs => Ok (comp_id <$> (cs : list ArchitectureComponent))
  | Js.Undefined => Ok []
  | Js.Inherited => Throw TypeError
  end.

Definition containerElement (arch : ExtractedArchitecture)
    (requirements : list Requirement) (c : ArchitectureContainer) : Result C4Element :=
  children ← childrenOf arch (cont_id c);
  Ok {| el_id := cont_id c;
        el_type := ty_container;
        el_name := cont_name c;
        el_description := cont_description c;
        el_technology := Some (cont_technology c);
        el_requirements := tracedRequirements requirements (cont_responsibilities c);
        el_children := Some children |}.

(** [arch.level2_relationships.some(r => r.from === sys.id || r.to === sys.id)] *)
Definition referencedAtLevel2 (rels : list ArchitectureRelationship)
    (sys : ArchitectureExternalSystem) : bool :=
  existsb (λ r, String.eqb (rel_from r) (ext_id sys) || String.eqb (rel_to r) (ext_id sys)) rels.

(** The relationship array is read inside the loop over the external
    systems and again right after it; every failure is a [TypeError], so
    it is read once here. *)
Definition buildLevel2Diagrams (arch : ExtractedArchitecture)
    (requirements : list Requirement) : Result (list C4Diagram) :=
  containers ← required (level2_containers arch);
  containerElements ← mapR (containerElement arch requirements) containers;
  ctx ← required (level1_context arch);
  external_systems ← required (ctx_external_systems ctx);
  rels ← required (level2_relationships arch);
  let elements :=
    containerElements ++
    (externalElement <$> filter (λ sys, referencedAtLevel2 rels sys) external_systems) in
  let relationships := level2Relationship <$> rels in
  Ok [ {| d_id := "level2-containers";
          d_level := 2;
          d_type := container_diagram;
          d_title := "Container Diagram";
          d_description := "Deployable units and their interactions";
          d_mermaidCode := generateMermaidLevel2 elements relationships;
          d_elements := elements;
          d_relationships := relationships;
          d_requirementReferences := req_id <$> requirements;
          d_generatedAt := now;
          d_parentId := Some "main-system" |} ].

Definition componentElement (requirements : list Requirement)
    (comp : ArchitectureComponent) : C4Element :=
  {| el_id := comp_id comp;
     el_type := ty_component;
     el_name := comp_name comp;
     el_description := comp_description comp;
     el_technology := Some (comp_technology comp);
     el_requirements := tracedRequirements requirements (comp_capabilities comp);
     el_children := None |}.

(** [elements.some(e => e.requirements.includes(r.id))] *)
Definition referencedBy (elements : list C4Element) (r : Requirement) : bool :=
  existsb (λ e, existsb (String.eqb (req_id r)) (el_requirements e)) elements.

(** [(arch.level3_relationships[containerId] || [])] *)
Definition level3RelationshipsOf (arch : ExtractedArchitecture) (containerId : string)
    : Result (list ArchitectureRelationship) :=
  byContainer ← required (level3_relationships arch);
  match Js.get byContainer containerId with
  | Js.Own rs => Ok rs
  | Js.Undefined => Ok []
  | Js.Inherited => Throw TypeError
  end.

(** The body of the loop over [Object.keys(arch.level3_components)]:
    [None] where the callback returns without pushing a diagram. *)
Definition level3DiagramFor (arch : ExtractedArchitecture)
    (requirements : list Requirement)
    (byContainer : Js.JsObject (list ArchitectureComponent))
    (containerId : string) : Result (option C4Diagram) :=
  match Js.own byContainer containerId with
  | None | Some [] => Ok None
  | Some components =>
      containers ← required (level2_containers arch);
      match find (λ c, String.eqb (cont_id c) containerId) containers with
      | None => Ok None
      | Some container =>
          let elements := componentElement requirements <$> components in
          rels ← level3RelationshipsOf arch containerId;
          let relationships := level3Relationship <$> rels in
          Ok (Some
            {| d_id := "level3-" +:+ containerId;
               d_level := 3;
               d_type := component_diagram;
               d_title := "Component Diagram - " +:+ cont_name container;
               d_description := "Internal components of " +:+ cont_name container;
               d_mermaidCode :=
                 generateMermaidLevel3 (cont_name container) elements relationships;
               d_elements := elements;
               d_relationships := relationships;
               d_requirementReferences :=
                 req_id <$> filter (λ r, referencedBy elements r) requirements;
               d_generatedAt := now;
               d_parentId := Some containerId |})
      end
  end.

Definition buildLevel3Diagrams (arch : ExtractedArchitecture)
    (requirements : list Requirement) : Result (list C4Diagram) :=
  byContainer ← required (level3_components arch);
  pushed ← mapR (level3DiagramFor arch requirements byContainer) (Js.keys byContainer);
  Ok (omap id (pushed : list (option C4Diagram))).

End Builders.

(** The architecture returned when the extraction call fails. *)
Definition getFallbackArchitecture (requirements : list Requirement) : ExtractedArchitecture :=
  {| level1_context := Some
       {| ctx_system := Some {| sys_name := "System";
                                sys_description := "Main system based on requirements";
                                sys_scope := "To be defined" |};
          ctx_people := Some
            [ {| person_id := "user";
                 person_name := "User";
                 person_role := "End User";
                 person_description := "Interacts with the system";
                 person_interactions := ["use system"] |} ];
          ctx_external_systems := Some [];
          ctx_relationships := Some
            [ {| rel_from := "user"; rel_to := "system"; rel_label := "Uses";
                 rel_protocol := Some "HTTPS"; rel_dataFlow := None;
                 rel_async := None; rel_pattern := None |} ] |};
     level2_containers := Some
       [ {| cont_id := "webapp";
            cont_name := "Web Application";
            cont_type := "WebApp";
            cont_technology := "Web Browser";
            cont_description := "User interface";
            cont_responsibilities := ["Display UI"; "Handle user input"];
            cont_dependencies := Some ["api"] |};
         {| cont_id := "api";
            cont_name := "API";
            cont_type := "API";
            cont_technology := "REST API";
            cont_description := "Backend API";
            cont_responsibilities := ["Business logic"; "Data access"];
            cont_dependencies := Some [] |} ];
     level2_relationships := Some
       [ {| rel_from := "webapp"; rel_to := "api"; rel_label := "Makes API calls";
            rel_protocol := Some "HTTPS"; rel_dataFlow := None;
            rel_async := None; rel_pattern := None |} ];
     level3_components := Some [];
     level3_relationships := Some [] |}.

(** ** The service: language model, file system, and the run *)

Record IndexEntry : Type := {
  ix_id : string;
  ix_level : nat;
  ix_type : DiagramType;
  ix_title : string;
  ix_parentId : option string
}.

(** The documents the service writes with [JSON.stringify] and reads back
    with [JSON.parse]; the text in between is not modelled. *)
Inductive JsonDoc : Type :=
| IndexDoc (diagrams : list IndexEntry) (generatedAt : string)
| DiagramDoc (d : C4Diagram).

(** What a run can change: the files and directories on disk, and the
    prompts sent to the chat completion endpoint so far. File system calls
    are taken to succeed, except reading a directory as a file. *)
Record World : Type := {
  files : gmap string JsonDoc;
  dirs : gset string;
  requests : list string
}.

(** What a run only reads.
    - [getPromptContent] is [PromptService.getPromptContent], taken not to
      throw.
    - [chatCompletion prompt] is the awaited [chat.completions.create] call
      followed by [response.choices[0]?.message?.content]: [None] when
      either throws, [Some None] when there is no content.
    - [parseJSON] is [JSON.parse], [None] when it throws; a parsed value is
      used as an [ExtractedArchitecture] whatever its shape, so a value
      without the expected properties is a record of [None]s.
    - [clock] is [new Date().toISOString()]. *)
Record Env : Type := {
  projectsDir : string;
  getPromptContent : string → option string;
  chatCompletion : string → option (option string);
  parseJSON : string → option ExtractedArchitecture;
  clock : string
}.

Definition M (A : Type) : Type := World → Result A * World.

#[global] Instance M_ret : MRet M := λ A a w, (Ok a, w).
#[global] Instance M_bind : MBind M := λ A B f m w,
  match m w with
  | (Ok a, w') => f a w'
  | (Throw e, w') => (Throw e, w')
  end.

Definition lift {A} (r : Result A) : M A := λ w, (r, w).

(** [try { body } catch (error) { handler }] *)
Definition tryCatch {A} (body : M A) (handler : Error → M A) : M A := λ w,
  match body w with
  | (Ok a, w') => (Ok a, w')
  | (Throw e, w') => handler e w'
  end.

(** [path.join(a, b)], without its normalisation of the result. *)
Definition pathJoin (a b : string) : string := a +:+ "/" +:+ b.

Definition existsSync (w : World) (p : string) : bool :=
  bool_decide (p ∈ dirs w) || bool_decide (is_Some (files w !! p)).

Definition mkdirSync (p : string) (w : World) : World :=
  {| files := files w; dirs := {[p]} ∪ dirs w; requests := requests w |}.

Definition writeFileSync (p : string) (doc : JsonDoc) (w : World) : World :=
  {| files := <[p := doc]> (files w); dirs := dirs w; requests := requests w |}.

Definition readFileSync (w : World) (p : string) : Result JsonDoc :=
  match files w !! p with
  | Some doc => Ok doc
  | None => Throw IOError
  end.

Section Service.

Variable env : Env.

Definition requirementText (r : Requirement) : string :=
  "[" +:+ req_type r +:+ "] " +:+ req_title r +:+ Js.nl +:+ req_description r +:+ Js.nl
    +:+ default "" (Js.or (req_rationale r) (Some "")).

(** The world after one more request to the model. *)
Definition logRequest (prompt : string) (w : World) : World :=
  {| files := files w; dirs := dirs w; requests := requests w ++ [prompt] |}.

(** The awaited call to the model, recorded in [requests]. *)
Definition chat (prompt : string) : M (option string) := λ w,
  match chatCompletion env prompt with
  | Some content => (Ok content, logRequest prompt w)
  | None => (Throw ServiceError, logRequest prompt w)
  end.

Definition stripCodeFence (jsonContent : string) : string :=
  if Js.startsWith jsonContent "```json"
  then Js.removeAll "```" None (Js.removeAll "```json" None jsonContent)
  else if Js.startsWith jsonContent "```"
  then Js.removeAll "```" None jsonContent
  else jsonContent.

(** The prompt: the template with every [{{TEXT}}] replaced by the text of
    the requirements. *)
Definition promptFor (promptTemplate : string) (requirements : list Requirement) : string :=
  let text := Js.join (Js.nl +:+ Js.nl) (requirementText <$> requirements) in
  Js.replaceAll "{{TEXT}}" text "" 0 promptTemplate.

(** The text handed to [JSON.parse]: the content of the reply, or the text
    of an empty object when there is none, trimmed and without code fence. *)
Definition jsonContentOf (reply : option string) : string :=
  let content := default "{}" (Js.or reply (Some "{}")) in
  stripCodeFence (Js.trim content).

Definition extractArchitecture (requirements : list Requirement) : M ExtractedArchitecture :=
  match getPromptContent env "architecture-c4-extraction" with
  | None | Some EmptyString => lift (Throw PromptNotFound)
  | Some promptTemplate =>
      let prompt := promptFor promptTemplate requirements in
      tryCatch
        (reply ← chat prompt;
         lift (match parseJSON env (jsonContentOf reply) with
               | Some arch => Ok arch
               | None => Throw SyntaxError
               end))
        (λ _, mret (getFallbackArchitecture requirements))
  end.

Definition c4DirOf (projectId : string) : string :=
  pathJoin (pathJoin (projectsDir env) projectId) "c4-diagrams".

Definition indexEntry (d : C4Diagram) : IndexEntry :=
  {| ix_id := d_id d;
     ix_level := d_level d;
     ix_type := d_type d;
     ix_title := d_title d;
     ix_parentId := d_parentId d |}.

Definition saveDiagrams (projectId : string) (diagrams : list C4Diagram) : M unit := λ w,
  let c4Dir := c4DirOf projectId in
  let w1 := if existsSync w c4Dir then w else mkdirSync c4Dir w in
  let w2 := foldl (λ w d, writeFileSync (pathJoin c4Dir (d_id d +:+ ".json")) (DiagramDoc d) w)
                  w1 diagrams in
  (Ok (), writeFileSync (pathJoin c4Dir "index.json")
                        (IndexDoc (indexEntry <$> diagrams) (clock env)) w2).

Definition generateC4Diagrams (projectId : string) (requirements : list Requirement)
    : M (list C4Diagram) :=
  architecture ← extractArchitecture requirements;
  level1 ← lift (buildLevel1Diagram (clock env) architecture requirements);
  level2Diagrams ← lift (buildLevel2Diagrams (clock env) architecture requirements);
  level3Diagrams ← lift (buildLevel3Diagrams (clock env) architecture requirements);
  let diagrams := [level1] ++ level2Diagrams ++ level3Diagrams in
  _ ← saveDiagrams projectId diagrams;
  mret diagrams.

(** The body of the loop over [index.diagrams]: [None] where the file
    does not exist and nothing is pushed. *)
Definition loadDiagramRef (w : World) (c4Dir : string) (diagramRef : IndexEntry)
    : Result (option JsonDoc) :=
  let filePath := pathJoin c4Dir (ix_id diagramRef +:+ ".json") in
  if existsSync w filePath
  then content ← readFileSync w filePath; Ok (Some content)
  else Ok None.

(** The result holds whatever documents the referenced files contain. *)
Definition getDiagrams (projectId : string) : M (list JsonDoc) := λ w,
  let c4Dir := c4DirOf projectId in
  if negb (existsSync w c4Dir) then (Ok [], w) else
  let indexPath := pathJoin c4Dir "index.json" in
  if negb (existsSync w indexPath) then (Ok [], w) else
  (index ← readFileSync w indexPath;
   match index with
   | IndexDoc refs _ =>
       loaded ← mapR (loadDiagramRef w c4Dir) refs;
       Ok (omap id (loaded : list (option JsonDoc)))
   | DiagramDoc _ => Throw TypeError
   end, w).

End Service.

(** ** Strings without a given character *)

(** [c] does not occur in [s]. *)
Fixpoint lacks (c : ascii) (s : string) : bool :=
  match s with
  | EmptyString => true
  | String c' s' => negb (Ascii.eqb c' c) && lacks c s'
  end.

(** ** Rendering data of an element *)

(** The element without its requirement ids and its children: what is left
    is all a renderer reads. *)
Definition bare (e : C4Element) : C4Element :=
  {| el_id := el_id e;
     el_type := el_type e;
     el_name := el_name e;
     el_description := el_description e;
     el_technology := el_technology e;
     el_requirements := [];
     el_children := None |}.

(** The diagram as drawn: its elements without requirement ids and
    children, and no requirement references. *)
Definition drawing (d : C4Diagram) : C4Diagram :=
  {| d_id := d_id d;
     d_level := d_level d;
     d_type := d_type d;
     d_title := d_title d;
     d_description := d_description d;
     d_mermaidCode := d_mermaidCode d;
     d_elements := bare <$> d_elements d;
     d_relationships := d_relationships d;
     d_requirementReferences := [];
     d_generatedAt := d_generatedAt d;
     d_parentId := d_parentId d |}.

(** The result of a builder, seen through a function. *)
Definition mapResult {A B} (f : A → B) (r : Result A) : Result B :=
  match r with
  | Ok a => Ok (f a)
  | Throw e => Throw e
  end.

(** ** Requirements in lower case *)

(** The requirement with its title and description in lower case. *)
Definition lowerCased (r : Requirement) : Requirement :=
  {| req_id := req_id r;
     req_type := req_type r;
     req_title := Js.toLowerCase (req_title r);
     req_description := Js.toLowerCase (req_description r);
     req_rationale := req_rationale r |}.

(** ** Diagrams saved under one id *)

(** The latest of the saved diagrams that carries the id of [d]: the one
    whose body file is left on disk. *)
Definition latest (diagrams : list C4Diagram) (d : C4Diagram) : C4Diagram :=
  default d (last (filter (λ d', d_id d' = d_id d) diagrams)).

(** ** The spec-kit template service ([SpecKitTemplateService]) *)

Module SpecKit.

Definition baseUrl : string :=
  "https://raw.githubusercontent.com/github/spec-kit/main/templates".

(** The state of the service: its template cache, and the urls requested
    from GitHub so far. *)
Record Service : Type := {
  templateCache : gmap string string;
  gets : list string
}.

(** A returned value, or the error [Could not fetch template <name> from
    GitHub]. *)
Inductive Fetch (A : Type) : Type :=
| Fetched (a : A)
| CouldNotFetch (templateName : string).
Arguments Fetched {A} a.
Arguments CouldNotFetch {A} templateName.

Record TemplateSet : Type := {
  spec_template : string;
  plan_template : string;
  tasks_template : string;
  implement_template : string
}.

Record SpecKitTemplate : Type := {
  tpl_name : string;
  tpl_content : string;
  tpl_url : string
}.

Definition urlOf (templateName : string) : string := baseUrl +:+ "/" +:+ templateName.

Section Network.

(** [axios.get(url, ...)] followed by [response.data]: [None] when the
    request rejects. *)
Variable get : string → option string.

Definition fetchTemplate (templateName : string) (s : Service) : Fetch string * Service :=
  match templateCache s !! templateName with
  | Some content => (Fetched content, s)
  | None =>
      let url := urlOf templateName in
      match get url with
      | Some content =>
          (Fetched content,
           {| templateCache := <[templateName := content]> (templateCache s);
              gets := gets s ++ [url] |})
      | None =>
          (CouldNotFetch templateName,
           {| templateCache := templateCache s; gets := gets s ++ [url] |})
      end
  end.

(** Sequencing of awaited calls. *)
Definition andThen {A B} (m : Service → Fetch A * Service)
    (k : A → Service → Fetch B * Service) (s : Service) : Fetch B * Service :=
  match m s with
  | (Fetched a, s') => k a s'
  | (CouldNotFetch n, s') => (CouldNotFetch n, s')
  end.

Definition fetchAllTemplates : Service → Fetch TemplateSet * Service :=
  andThen (fetchTemplate "spec-template.md") (λ spec,
  andThen (fetchTemplate "plan-template.md") (λ plan,
  andThen (fetchTemplate "tasks-template.md") (λ tasks,
  andThen (fetchTemplate "implement-template.md") (λ implement s,
    (Fetched {| spec_template := spec; plan_template := plan;
                tasks_template := tasks; implement_template := implement |}, s))))).

Definition getSpecTemplate : Service → Fetch string * Service :=
  fetchTemplate "spec-template.md".

Definition getPlanTemplate : Service → Fetch string * Service :=
  fetchTemplate "plan-template.md".

Definition getTasksTemplate : Service → Fetch string * Service :=
  fetchTemplate "tasks-template.md".

Definition getImplementTemplate : Service → Fetch string * Service :=
  fetchTemplate "implement-template.md".

Definition specifyHeader : string :=
  Js.join Js.nl
    [ "# Functional Specifications"; "";
      "This file contains the functional specifications for this project, including:";
      "- User Stories"; "- Functional Requirements"; "- Success Criteria"; "";
      "Based on spec-kit template: https://github.com/github/spec-kit"; "";
      "---"; ""; "" ].

Definition constitutionHeader : string :=
  Js.join Js.nl
    [ "# Non-Functional Specifications (Constitution)"; "";
      "This file contains the non-functional requirements and constraints for this project.";
      "";
      "Based on spec-kit template: https://github.com/github/spec-kit"; "";
      "---"; ""; "" ].

Definition generateInitialSpecifyContent : Service → Fetch string * Service :=
  andThen getSpecTemplate (λ template s, (Fetched (specifyHeader +:+ template), s)).

Definition generateInitialConstitutionContent : Service → Fetch string * Service :=
  andThen getSpecTemplate (λ template s, (Fetched (constitutionHeader +:+ template), s)).

End Network.

Definition getAvailableTemplates : list SpecKitTemplate :=
  (λ name, {| tpl_name := name; tpl_content := ""; tpl_url := urlOf name |}) <$>
    [ "spec-template.md"; "plan-template.md"; "tasks-template.md"; "implement-template.md" ].

Definition clearCache (s : Service) : Service :=
  {| templateCache := ∅; gets := gets s |}.

End SpecKit.

(** ** Sample inputs *)

Module Samples.

Definition emptyWorld : World := {| files := ∅; dirs := ∅; requests := [] |}.

(** The requirement of the specification's scenario A. *)
Definition userLogin : Requirement :=
  {| req_id := "US-00001"; req_type := "USER_STORY"; req_title := "User login";
     req_description := "user authenticates"; req_rationale := None |}.

Definition displayUi : Requirement :=
  {| req_id := "US-00002"; req_type := "FUNCTIONAL"; req_title := "Display UI in dark mode";
     req_description := "The interface offers a dark theme"; req_rationale := None |}.

Definition login : Requirement :=
  {| req_id := "US-00003"; req_type := "USER_STORY"; req_title := "Login";
     req_description := "Auth"; req_rationale := None |}.

(** A service whose chat completion call always rejects. *)
Definition failingAdapter : Env :=
  {| projectsDir := "projects";
     getPromptContent := λ _, Some "Describe the architecture of: {{TEXT}}";
     chatCompletion := λ _, None;
     parseJSON := λ _, None;
     clock := "2025-01-01T00:00:00.000Z" |}.

(** The value of [JSON.parse('{}')]. *)
Definition emptyObject : ExtractedArchitecture :=
  {| level1_context := None; level2_containers := None; level2_relationships := None;
     level3_components := None; level3_relationships := None |}.

(** A service whose model answers without content, so that the service
    itself substitutes the text of an empty object. *)
Definition emptyReply : Env :=
  {| projectsDir := "projects";
     getPromptContent := λ _, Some "Describe the architecture of: {{TEXT}}";
     chatCompletion := λ _, Some None;
     parseJSON := λ s, if String.eqb s "{}" then Some emptyObject else None;
     clock := "2025-01-01T00:00:00.000Z" |}.

(** A service whose model answers with the given document. *)
Definition answering (arch : ExtractedArchitecture) : Env :=
  {| projectsDir := "projects";
     getPromptContent := λ _, Some "Describe the architecture of: {{TEXT}}";
     chatCompletion := λ _, Some (Some "{...}");
     parseJSON := λ _, Some arch;
     clock := "2025-01-01T00:00:00.000Z" |}.

(** A complete document whose Level-2 relationship names a database
    that is declared nowhere. *)
Definition dangling : ExtractedArchitecture :=
  {| level1_context := level1_context (getFallbackArchitecture []);
     level2_containers := level2_containers (getFallbackArchitecture []);
     level2_relationships := Some
       [ {| rel_from := "api"; rel_to := "db"; rel_label := "Reads and writes";
            rel_protocol := Some "SQL"; rel_dataFlow := None;
            rel_async := None; rel_pattern := None |} ];
     level3_components := Some [];
     level3_relationships := Some [] |}.

Definition payments : ArchitectureExternalSystem :=
  {| ext_id := "payments"; ext_name := "Payments"; ext_type := "Gateway";
     ext_description := "Card payments"; ext_protocol := Some "HTTPS";
     ext_dataFormat := None |}.

Definition mailer : ArchitectureExternalSystem :=
  {| ext_id := "mailer"; ext_name := "Mailer"; ext_type := "SMTP";
     ext_description := "Sends mail"; ext_protocol := None;
     ext_dataFormat := None |}.

(** A complete document in the manner of the specification's scenario B: a
container [auth] with two components, an external payment system used at
Level 2, a mailer used at Level 1 only, and components filed under a
container [ghost] that is not declared. *)
Definition shop : ExtractedArchitecture :=
  {| level1_context := Some
       {| ctx_system := Some {| sys_name := "Shop"; sys_description := "Online shop";
                                sys_scope := "Ordering" |};
          ctx_people := Some
            [ {| person_id := "customer"; person_name := "Customer"; person_role := "Buyer";
                 person_description := "Orders goods"; person_interactions := [] |} ];
          ctx_external_systems := Some [payments; mailer];
          ctx_relationships := Some
            [ {| rel_from := "customer"; rel_to := "system"; rel_label := "Orders";
                 rel_protocol := None; rel_dataFlow := None; rel_async := None;
                 rel_pattern := None |};
              {| rel_from := "main-system"; rel_to := "mailer"; rel_label := "Notifies";
                 rel_protocol := Some "SMTP"; rel_dataFlow := None; rel_async := None;
                 rel_pattern := None |} ] |};
     level2_containers := Some
       [ {| cont_id := "auth"; cont_name := "Auth"; cont_type := "Service";
            cont_technology := "Node"; cont_description := "Authentication";
            cont_responsibilities := ["authenticates"]; cont_dependencies := None |};
         {| cont_id := "orders"; cont_name := "Orders"; cont_type := "Service";
            cont_technology := "Node"; cont_description := "Order handling";
            cont_responsibilities := ["order"]; cont_dependencies := None |} ];
     level2_relationships := Some
       [ {| rel_from := "orders"; rel_to := "payments"; rel_label := "Charges";
            rel_protocol := None; rel_dataFlow := Some "JSON"; rel_async := None;
            rel_pattern := None |} ];
     level3_components := Some
       [ ("auth",
          [ {| comp_id := "login-ui"; comp_name := "Login UI"; comp_type := "UI";
               comp_technology := "React"; comp_description := "Login form";
               comp_capabilities := ["login"]; comp_dependencies := [] |};
            {| comp_id := "auth-api"; comp_name := "Auth API"; comp_type := "API";
               comp_technology := "Express"; comp_description := "Checks credentials";
               comp_capabilities := ["credentials"]; comp_dependencies := [] |} ]);
         ("ghost",
          [ {| comp_id := "phantom"; comp_name := "Phantom"; comp_type := "Job";
               comp_technology := "Cron"; comp_description := "Belongs nowhere";
               comp_capabilities := []; comp_dependencies := [] |} ]) ];
     level3_relationships := Some
       [ ("auth",
          [ {| rel_from := "login-ui"; rel_to := "auth-api"; rel_label := "Posts credentials";
               rel_protocol := None; rel_dataFlow := None; rel_async := None;
               rel_pattern := Some "REST" |} ]) ] |}.

(** The store after a fallback run for project [demo], with the body of
the container diagram removed afterwards. *)
Definition bodyRemoved : World :=
  let w := (generateC4Diagrams failingAdapter "demo" [userLogin] emptyWorld).2 in
  {| files := delete "projects/demo/c4-diagrams/level2-containers.json" (files w);
     dirs := dirs w;
     requests := requests w |}.

End Samples.

(** ** Properties as the specification words them *)

Module Spec.

(** The traceability heuristic of the specification: containment of the
    keyword in the title or description, or of the title or description
    in the keyword, ignoring case. *)
Definition associates (r : Requirement) (k : string) : bool :=
  let title := Js.toLowerCase (req_title r) in
  let description := Js.toLowerCase (req_description r) in
  let keyword := Js.toLowerCase k in
  Js.includes title keyword || Js.includes description keyword ||
  Js.includes keyword title || Js.includes keyword description.

(** Requirement union law: the diagram lists exactly the requirement ids
    its elements list. *)
Definition unionLaw (d : C4Diagram) : Prop :=
  ∀ id, id ∈ d_requirementReferences d ↔ ∃ e, e ∈ d_elements d ∧ id ∈ el_requirements e.

(** Relationship closure: both ends of every relationship are ids of
    elements of the same diagram. *)
Definition closed (d : C4Diagram) : Prop :=
  ∀ rel, rel ∈ d_relationships d →
    c4rel_from rel ∈ el_id <$> d_elements d ∧ c4rel_to rel ∈ el_id <$> d_elements d.

(** A parsed answer that lacks the context object, the system object, or
one of the arrays and maps that every run reads. (The map of Level-3
relationships is read only once a component diagram is being built.) *)
Definition incomplete (arch : ExtractedArchitecture) : Prop :=
  match level1_context arch with
  | None => True
  | Some ctx =>
      ctx_system ctx = None ∨ ctx_people ctx = None ∨
      ctx_external_systems ctx = None ∨ ctx_relationships ctx = None
  end ∨
  level2_containers arch = None ∨ level2_relationships arch = None ∨
  level3_components arch = None.

End Spec.

(** ** Further sample inputs *)

Module Cases.

(** A diagram with the given id and title, and nothing in it. *)
Definition stub (id title : string) : C4Diagram :=
  {| d_id := id; d_level := 3; d_type := component_diagram; d_title := title;
     d_description := ""; d_mermaidCode := ""; d_elements := []; d_relationships := [];
     d_requirementReferences := []; d_generatedAt := ""; d_parentId := None |}.

(** A store that holds a file of an earlier run. *)
Definition staleWorld : World :=
  {| files := {[ "projects/demo/c4-diagrams/level3-old.json" := DiagramDoc (stub "level3-old" "Old") ]};
     dirs := {[ "projects/demo/c4-diagrams" ]};
     requests := [] |}.

(** A complete answer with a container named after a property that every
JavaScript object inherits, and no components filed under it. *)
Definition inheritedId : ExtractedArchitecture :=
  {| level1_context := level1_context (getFallbackArchitecture []);
     level2_containers := Some
       [ {| cont_id := "constructor"; cont_name := "Constructor"; cont_type := "Service";
            cont_technology := "Node"; cont_description := "Builds things";
            cont_responsibilities := []; cont_dependencies := None |} ];
     level2_relationships := Some [];
     level3_components := Some [];
     level3_relationships := Some [] |}.

Definition shopSystem : C4Element :=
  systemElement {| sys_name := "Shop"; sys_description := "Online shop";
                   sys_scope := "Ordering" |} [] [].

Definition customer : C4Element :=
  personElement {| person_id := "customer"; person_name := "Customer";
                   person_role := "Buyer"; person_description := "Orders goods";
                   person_interactions := [] |}.

(** An external system that was given the id of the system itself. *)
Definition paymentsAsMain : C4Element :=
  externalElement {| ext_id := "main-system"; ext_name := "Payments";
                     ext_type := "Gateway"; ext_description := "Card payments";
                     ext_protocol := None; ext_dataFormat := None |}.

(** A requirement whose title is the replacement pattern for the match. *)
Definition dollarTitle : Requirement :=
  {| req_id := "US-00009"; req_type := "functional"; req_title := "$&";
     req_description := "d"; req_rationale := None |}.

(** A network that answers every request, one that answers none, and a
    service that has requested nothing yet. *)
Definition online (url : string) : option string := Some ("# " +:+ url).

Definition offline (url : string) : option string := None.

(** A network where only the plan template is missing. *)
Definition planMissing (url : string) : option string :=
  if String.eqb url (SpecKit.urlOf "plan-template.md") then None else Some ("# " +:+ url).

Definition fresh : SpecKit.Service := {| SpecKit.templateCache := ∅; SpecKit.gets := [] |}.

End Cases.
(** ** Facts about the string primitives *)

Module JsFacts.

Lemma startsWith_true s p : Js.startsWith s p = true ↔ ∃ post, s = p +:+ post.
Proof.
  revert s. induction p as [|a p IH]; intros s; simpl.
  - split; [intros _; by exists s | done].
  - destruct s as [|b s].
    + split; [done | intros [post Hp]; discriminate Hp].
    + destruct (Ascii.eqb a b) eqn:Hab.
      * apply Ascii.eqb_eq in Hab as ->. rewrite IH. split.
        -- intros [post ->]. by exists post.
        -- intros [post Hp]. injection Hp as ->. by exists post.
      * split; [done |]. intros [post Hp]. injection Hp as -> _.
        by rewrite Ascii.eqb_refl in Hab.
Qed.

Lemma includes_true s k : Js.includes s k = true ↔ Js.isSubstring k s.
Proof.
  split.
  - induction s as [|c s IH]; simpl; rewrite orb_true_iff.
    + intros [H|H]; [|done]. apply startsWith_true in H as [post ->].
      by exists "", post.
    + intros [H|H].
      * apply startsWith_true in H as [post ->]. by exists "", post.
      * destruct (IH H) as (pre & post & ->). by exists (String c pre), post.
  - intros (pre & post & ->). induction pre as [|c pre IH].
    + assert (Js.startsWith (k +:+ post) k = true) as H
        by (apply startsWith_true; by exists post).
      change ("" +:+ k +:+ post) with (k +:+ post).
      destruct (k +:+ post); simpl; by rewrite H.
    + change (String c pre +:+ k +:+ post) with (String c (pre +:+ k +:+ post)).
      simpl. rewrite IH. apply orb_true_r.
Qed.

Example includes_login : Js.includes (Js.toLowerCase "User login") (Js.toLowerCase "Login") = true.
Proof. reflexivity. Qed.

Example includes_not_reversed : Js.includes "login" "user login" = false.
Proof. reflexivity. Qed.

Example includes_empty_keyword s : Js.includes s "" = true.
Proof. by destruct s. Qed.

Example replaceAll_every_match :
  Js.replaceAll "{{TEXT}}" "a$$b" "" 0 "X{{TEXT}}Y{{TEXT}}" = "Xa$bYa$b".
Proof. reflexivity. Qed.

Example removeAll_fence : Js.removeAll "```" None ("{}" +:+ Js.nl +:+ "```" +:+ Js.nl) = "{}" +:+ Js.nl.
Proof. reflexivity. Qed.

Example trim_both_ends : Js.trim (" " +:+ Js.nl +:+ "{ }" +:+ Js.nl) = "{ }".
Proof. reflexivity. Qed.

End JsFacts.

(** ** Evaluation of closed runs *)

Lemma pair_of_fst {A B} (p : A * B) (a : A) : p.1 = a → p = (a, p.2).
Proof. destruct p. simpl. by intros ->. Qed.

(** [evaluate t H] adds [H : t = v] for the value [v] of the closed
    term [t]. *)
Ltac evaluate t H :=
  let v := eval vm_compute in t in
  assert (H : t = v) by (vm_cast_no_check (eq_refl v)).

(** ** Facts about the exception monad *)

Lemma bind_Ok {A B} (r : Result A) (f : A → Result B) (b : B) :
  r ≫= f = Ok b ↔ ∃ a, r = Ok a ∧ f a = Ok b.
Proof.
  destruct r as [a|e]; simpl; split.
  - intros H. by exists a.
  - by intros (a' & [= <-] & H).
  - done.
  - by intros (a' & ? & _).
Qed.

Lemma bind_Throw {A B} (r : Result A) (f : A → Result B) (e : Error) :
  r ≫= f = Throw e ↔ r = Throw e ∨ ∃ a, r = Ok a ∧ f a = Throw e.
Proof.
  destruct r as [a|e']; simpl; split.
  - intros H. right. by exists a.
  - intros [?|(a' & [= <-] & H)]; done.
  - intros [= ->]. by left.
  - intros [[= ->]|(a' & ? & _)]; done.
Qed.

Lemma required_Ok {A} (o : option A) (a : A) : required o = Ok a ↔ o = Some a.
Proof. destruct o; simpl; split; congruence. Qed.

Lemma required_Throw {A} (o : option A) (e : Error) :
  required o = Throw e ↔ o = None ∧ e = TypeError.
Proof.
  destruct o; simpl; split.
  - done.
  - by intros [? _].
  - by intros [= <-].
  - by intros [_ ->].
Qed.

Lemma mapR_Ok {A B} (f : A → Result B) (xs : list A) (ys : list B) :
  mapR f xs = Ok ys ↔ Forall2 (λ x y, f x = Ok y) xs ys.
Proof.
  revert ys. induction xs as [|x xs IH]; intros ys; simpl.
  - split; [intros [= <-]; constructor | by inversion 1].
  - rewrite bind_Ok. split.
    + intros (y & Hy & H). apply bind_Ok in H as (ys' & Hys & [= <-]).
      constructor; [done | by apply IH].
    + inversion 1 as [|? y ? ys' Hy Hys]; subst. exists y. split; [done |].
      apply bind_Ok. exists ys'. split; [by apply IH | done].
Qed.

Lemma mapR_Throw {A B} (f : A → Result B) (xs : list A) (e : Error) :
  mapR f xs = Throw e → ∃ x, x ∈ xs ∧ f x = Throw e.
Proof.
  induction xs as [|x xs IH]; simpl; [done |].
  rewrite bind_Throw. intros [H|(y & _ & H)].
  - exists x. split; [left | done].
  - apply bind_Throw in H as [H|(ys & _ & H)]; [|done].
    destruct (IH H) as (x' & Hin & Hx'). exists x'. split; [by right | done].
Qed.

(** Splits a hypothesis [m = Ok b] along the binds of [m]. *)
Ltac inv_Ok H :=
  repeat match type of H with
  | _ ≫= _ = Ok _ =>
      let a := fresh "a" in let Ha := fresh "H" a in
      apply bind_Ok in H as (a & Ha & H)
  | Ok _ = Ok _ => injection H as H
  end.

(** ** The traceability heuristic *)

Section Traceability.

Import JsFacts.

Lemma matchesKeyword_true r k :
  matchesKeyword r k = true ↔
  Js.isSubstring (Js.toLowerCase k) (Js.toLowerCase (req_title r)) ∨
  Js.isSubstring (Js.toLowerCase k) (Js.toLowerCase (req_description r)).
Proof. unfold matchesKeyword. by rewrite orb_true_iff, !includes_true. Qed.

Lemma elem_of_tracedRequirements requirements keywords id :
  id ∈ tracedRequirements requirements keywords ↔
  ∃ r k, r ∈ requirements ∧ k ∈ keywords ∧ req_id r = id ∧ matchesKeyword r k = true.
Proof.
  unfold tracedRequirements. rewrite list_elem_of_fmap. split.
  - intros (r & -> & Hr). apply list_elem_of_filter in Hr as [Hm Hr].
    apply Is_true_true, existsb_exists in Hm as (k & Hk & Hm).
    apply list_elem_of_In in Hk. by exists r, k.
  - intros (r & k & Hr & Hk & <- & Hm). exists r. split; [done |].
    apply list_elem_of_filter. split; [|done].
    apply Is_true_true, existsb_exists. exists k. by apply list_elem_of_In in Hk.
Qed.

Lemma tracedRequirements_sublist requirements keywords :
  tracedRequirements requirements keywords `sublist_of` req_id <$> requirements.
Proof. unfold tracedRequirements. apply fmap_sublist, sublist_filter. Qed.

Lemma tracedRequirements_subseteq requirements keywords :
  tracedRequirements requirements keywords ⊆ req_id <$> requirements.
Proof. apply sublist_subseteq, tracedRequirements_sublist. Qed.

Lemma containerElement_requirements arch requirements c e :
  containerElement arch requirements c = Ok e →
  el_id e = cont_id c ∧ el_type e = ty_container ∧
  el_requirements e = tracedRequirements requirements (cont_responsibilities c) ∧
  ∃ children, childrenOf arch (cont_id c) = Ok children ∧ el_children e = Some children.
Proof.
  unfold containerElement. intros H. inv_Ok H. subst e. simpl. do 3 (split; [done |]). eauto.
Qed.

End Traceability.



(** ** What the builders return *)

Section BuilderFacts.

Variable now : string.
Variable arch : ExtractedArchitecture.
Variable requirements : list Requirement.

Lemma buildLevel1Diagram_Ok d :
  buildLevel1Diagram now arch requirements = Ok d →
  ∃ ctx sys containers people external_systems rels,
    level1_context arch = Some ctx ∧ ctx_system ctx = Some sys ∧
    level2_containers arch = Some containers ∧ ctx_people ctx = Some people ∧
    ctx_external_systems ctx = Some external_systems ∧ ctx_relationships ctx = Some rels ∧
    d_level d = 1 ∧ d_parentId d = None ∧
    d_elements d = systemElement sys containers requirements
                     :: (personElement <$> people) ++ (externalElement <$> external_systems) ∧
    d_relationships d = level1Relationship <$> rels ∧
    d_requirementReferences d = req_id <$> requirements.
Proof.
  unfold buildLevel1Diagram. intros H. inv_Ok H.
  repeat match goal with Hr : required _ = Ok _ |- _ => apply required_Ok in Hr end.
  subst d. simpl. eauto 20.
Qed.

Lemma buildLevel2Diagrams_Ok ds :
  buildLevel2Diagrams now arch requirements = Ok ds →
  ∃ containers containerElements ctx external_systems rels d,
    level2_containers arch = Some containers ∧
    Forall2 (λ c e, containerElement arch requirements c = Ok e) containers containerElements ∧
    level1_context arch = Some ctx ∧ ctx_external_systems ctx = Some external_systems ∧
    level2_relationships arch = Some rels ∧
    ds = [d] ∧ d_level d = 2 ∧ d_parentId d = Some "main-system" ∧
    d_elements d = containerElements ++
      (externalElement <$> filter (λ sys, referencedAtLevel2 rels sys) external_systems) ∧
    d_relationships d = level2Relationship <$> rels ∧
    d_requirementReferences d = req_id <$> requirements.
Proof.
  unfold buildLevel2Diagrams. intros H. inv_Ok H.
  repeat match goal with Hr : required _ = Ok _ |- _ => apply required_Ok in Hr end.
  match goal with Hm : mapR _ _ = Ok _ |- _ => apply mapR_Ok in Hm end.
  subst ds. do 6 eexists. simpl. eauto 20.
Qed.

Lemma level3DiagramFor_Some byContainer containerId d :
  level3DiagramFor now arch requirements byContainer containerId = Ok (Some d) →
  ∃ components containers c rels,
    Js.own byContainer containerId = Some components ∧ components ≠ [] ∧
    level2_containers arch = Some containers ∧ c ∈ containers ∧ cont_id c = containerId ∧
    level3RelationshipsOf arch containerId = Ok rels ∧
    d_level d = 3 ∧ d_parentId d = Some containerId ∧
    d_elements d = componentElement requirements <$> components ∧
    d_relationships d = level3Relationship <$> rels ∧
    d_requirementReferences d
      = req_id <$> filter (λ r, referencedBy (componentElement requirements <$> components) r)
                          requirements.
Proof.
  unfold level3DiagramFor. intros H.
  destruct (Js.own byContainer containerId) as [[|comp comps]|] eqn:Hown; [done | | done].
  inv_Ok H. apply required_Ok in Ha.
  destruct (find _ a) as [c|] eqn:Hfind; [|done].
  apply find_some in Hfind as [Hin Hid].
  apply list_elem_of_In in Hin. apply String.eqb_eq in Hid.
  inv_Ok H. subst d. simpl.
  exists (comp :: comps), a, c, a0. eauto 20.
Qed.

Lemma buildLevel3Diagrams_Ok ds :
  buildLevel3Diagrams now arch requirements = Ok ds →
  ∃ byContainer pushed,
    level3_components arch = Some byContainer ∧
    Forall2 (λ k o, level3DiagramFor now arch requirements byContainer k = Ok o)
            (Js.keys byContainer) pushed ∧
    ds = omap id pushed.
Proof.
  unfold buildLevel3Diagrams. intros H. inv_Ok H.
  apply required_Ok in Ha. apply mapR_Ok in Ha0. eauto.
Qed.

(** Every diagram of level 3 comes from one key of the component map. *)
Lemma buildLevel3Diagrams_elem ds d :
  buildLevel3Diagrams now arch requirements = Ok ds → d ∈ ds →
  ∃ byContainer containerId,
    level3_components arch = Some byContainer ∧ containerId ∈ Js.keys byContainer ∧
    level3DiagramFor now arch requirements byContainer containerId = Ok (Some d).
Proof.
  intros (byContainer & pushed & Hc & Hall & ->)%buildLevel3Diagrams_Ok Hd.
  apply list_elem_of_omap in Hd as (o & Ho & Hsome). simpl in Hsome. subst o.
  apply list_elem_of_lookup in Ho as [i Hi].
  destruct (Forall2_lookup_r _ _ _ _ _ Hall Hi) as (k & Hk & Hfor).
  exists byContainer, k. split; [done |]. split; [|done].
  apply list_elem_of_lookup. eauto.
Qed.

End BuilderFacts.

(** ** What a run returns *)

Lemma generateC4Diagrams_Ok env projectId requirements w ds w' :
  generateC4Diagrams env projectId requirements w = (Ok ds, w') →
  ∃ arch w1 d1 d2s d3s,
    extractArchitecture env requirements w = (Ok arch, w1) ∧
    buildLevel1Diagram (clock env) arch requirements = Ok d1 ∧
    buildLevel2Diagrams (clock env) arch requirements = Ok d2s ∧
    buildLevel3Diagrams (clock env) arch requirements = Ok d3s ∧
    ds = d1 :: d2s ++ d3s ∧
    saveDiagrams env projectId ds w1 = (Ok (), w').
Proof.
  unfold generateC4Diagrams, mbind, M_bind, mret, M_ret, lift.
  destruct (extractArchitecture env requirements w) as [[arch|e] w1]; [|done].
  destruct (buildLevel1Diagram _ arch requirements) as [d1|e] eqn:H1; [|done].
  destruct (buildLevel2Diagrams _ arch requirements) as [d2s|e] eqn:H2; [|done].
  destruct (buildLevel3Diagrams _ arch requirements) as [d3s|e] eqn:H3; [|done].
  cbv zeta. change ([d1] ++ d2s ++ d3s) with (d1 :: d2s ++ d3s).
  destruct (saveDiagrams env projectId (d1 :: d2s ++ d3s) w1) as [[[]|e] w2] eqn:Hsave; [|done].
  intros [= <- <-]. exists arch, w1, d1, d2s, d3s. repeat split; done.
Qed.

(** ** Requirement references of a diagram *)

Section RequirementReferences.

Variable now : string.
Variable arch : ExtractedArchitecture.
Variable requirements : list Requirement.

Lemma referencedBy_true elements r :
  referencedBy elements r = true ↔ ∃ e, e ∈ elements ∧ req_id r ∈ el_requirements e.
Proof.
  unfold referencedBy. rewrite existsb_exists. split.
  - intros (e & He & (id & Hid & ->%String.eqb_eq)%existsb_exists).
    exists e. by rewrite !list_elem_of_In.
  - intros (e & He & Hid). exists e. rewrite <- list_elem_of_In. split; [done |].
    apply existsb_exists. exists (req_id r). rewrite <- list_elem_of_In.
    by rewrite String.eqb_refl.
Qed.

Lemma level1_unionLaw d :
  buildLevel1Diagram now arch requirements = Ok d → Spec.unionLaw d.
Proof.
  intros (ctx & sys & containers & people & exts & rels & _ & _ & _ & _ & _ & _ & _ & _
          & Hel & _ & Href)%buildLevel1Diagram_Ok id.
  rewrite Hel, Href. split.
  - intros Hid. exists (systemElement sys containers requirements). split; [left | done].
  - intros (e & He & Hid). apply elem_of_cons in He as [-> | He]; [done |].
    apply elem_of_app in He as [He | He];
      apply list_elem_of_fmap in He as (x & -> & _); by apply elem_of_nil in Hid.
Qed.

Lemma level2_references ds d :
  buildLevel2Diagrams now arch requirements = Ok ds → d ∈ ds →
  d_requirementReferences d = req_id <$> requirements ∧
  ∀ e, e ∈ d_elements d → el_requirements e ⊆ d_requirementReferences d.
Proof.
  intros (containers & els & ctx & exts & rels & d' & _ & Hall & _ & _ & _ & -> & _ & _
          & Hel & _ & Href)%buildLevel2Diagrams_Ok ->%list_elem_of_singleton.
  split; [done |]. intros e He. rewrite Hel in He. rewrite Href.
  apply elem_of_app in He as [He | He].
  - apply list_elem_of_lookup in He as [i Hi].
    destruct (Forall2_lookup_r _ _ _ _ _ Hall Hi) as (c & _ & Hc).
    apply containerElement_requirements in Hc as (_ & _ & -> & _).
    apply tracedRequirements_subseteq.
  - apply list_elem_of_fmap in He as (sys & -> & _). simpl. set_solver.
Qed.

Lemma level3_unionLaw byContainer containerId d :
  level3DiagramFor now arch requirements byContainer containerId = Ok (Some d) →
  Spec.unionLaw d.
Proof.
  intros (components & containers & c & rels & _ & _ & _ & _ & _ & _ & _ & _
          & Hel & _ & Href)%level3DiagramFor_Some id.
  rewrite Hel, Href, list_elem_of_fmap. split.
  - intros (r & -> & [Hr _]%list_elem_of_filter).
    by apply Is_true_true, referencedBy_true in Hr.
  - intros (e & He & Hid).
    assert (id ∈ req_id <$> requirements) as (r & -> & Hr)%list_elem_of_fmap.
    { apply list_elem_of_fmap in He as (comp & -> & _).
      by apply tracedRequirements_subseteq in Hid. }
    exists r. split; [done |]. apply list_elem_of_filter. split; [|done].
    apply Is_true_true, referencedBy_true. eauto.
Qed.

End RequirementReferences.

(** C4 (as the code has it): in every run that returns, the Level-1
    diagram and every Level-3 diagram list exactly the requirement ids their
    elements list; the Level-2 diagram lists every input requirement id,
    which contains the ids its elements list. *)
Theorem requirement_references_of_run env projectId requirements w ds w' :
  generateC4Diagrams env projectId requirements w = (Ok ds, w') →
  ∀ d, d ∈ ds →
    (d_level d = 1 ∨ d_level d = 2 ∨ d_level d = 3) ∧
    (d_level d = 1 ∨ d_level d = 3 → Spec.unionLaw d) ∧
    (d_level d = 2 →
       d_requirementReferences d = req_id <$> requirements ∧
       ∀ e, e ∈ d_elements d → el_requirements e ⊆ d_requirementReferences d).
Proof.
  intros (arch & w1 & d1 & d2s & d3s & _ & H1 & H2 & H3 & -> & _)%generateC4Diagrams_Ok d Hd.
  apply elem_of_cons in Hd as [-> | Hd]; [|apply elem_of_app in Hd as [Hd | Hd]].
  - pose proof (level1_unionLaw _ _ _ _ H1) as Hlaw.
    apply buildLevel1Diagram_Ok in H1
      as (? & ? & ? & ? & ? & ? & _ & _ & _ & _ & _ & _ & Hlevel & _).
    rewrite Hlevel. split; [by left |]. split; [done |]. discriminate.
  - pose proof (level2_references _ _ _ _ _ H2 Hd) as Hrefs.
    apply buildLevel2Diagrams_Ok in H2
      as (? & ? & ? & ? & ? & d' & _ & _ & _ & _ & _ & -> & Hlevel & _).
    apply list_elem_of_singleton in Hd as ->.
    rewrite Hlevel. split; [by right; left |]. split; [|done].
    intros [?|?]; discriminate.
  - destruct (buildLevel3Diagrams_elem _ _ _ _ _ H3 Hd) as (byContainer & k & _ & _ & Hfor).
    pose proof (level3_unionLaw _ _ _ _ _ _ Hfor) as Hlaw.
    apply level3DiagramFor_Some in Hfor
      as (? & ? & ? & ? & _ & _ & _ & _ & _ & _ & Hlevel & _).
    rewrite Hlevel. split; [by right; right |]. split; [done |]. discriminate.
Qed.

(** The law at the diagrams of a run that falls back: the context diagram
    obeys the union law, the container diagram lists the one requirement. *)
Lemma requirement_references_of_run_witness :
  ∃ d1 d2,
    (generateC4Diagrams Samples.failingAdapter "demo" [Samples.userLogin] Samples.emptyWorld).1
      = Ok [d1; d2] ∧
    Spec.unionLaw d1 ∧ d_requirementReferences d2 = ["US-00001"].
Proof.
  evaluate (generateC4Diagrams Samples.failingAdapter "demo" [Samples.userLogin]
                               Samples.emptyWorld).1 Hres.
  match type of Hres with _ = Ok [?a; ?b] => exists a, b end.
  split; [exact Hres |].
  pose proof (requirement_references_of_run _ _ _ _ _ _ (pair_of_fst _ _ Hres)) as Hlaw.
  split.
  - apply (Hlaw _ ltac:(left)). left. reflexivity.
  - apply (Hlaw _ ltac:(right; left)). reflexivity.
Defined.

(** C4 (as the specification has it) fails at Level 2: after a fallback
    the container diagram lists the requirement, and none of its elements
    does. *)
Lemma level2_breaks_unionLaw :
  ∃ d1 d2,
    (generateC4Diagrams Samples.failingAdapter "demo" [Samples.userLogin] Samples.emptyWorld).1
      = Ok [d1; d2] ∧
    d_level d2 = 2 ∧ ¬ Spec.unionLaw d2.
Proof.
  evaluate (generateC4Diagrams Samples.failingAdapter "demo" [Samples.userLogin]
                               Samples.emptyWorld).1 Hres.
  match type of Hres with _ = Ok [?a; ?b] => exists a, b end.
  split; [exact Hres |]. split; [reflexivity |].
  intros Hlaw. destruct (Hlaw "US-00001") as [Hex _].
  specialize (Hex ltac:(left)) as (e & He & Hid).
  cbn [d_elements] in He. rewrite !elem_of_cons in He.
  destruct He as [-> | [-> | He]]; [| | by apply elem_of_nil in He];
    cbn [el_requirements] in Hid; by apply elem_of_nil in Hid.
Qed.

(** ** Relationships of a diagram *)

Section Relationships.

Variable now : string.
Variable arch : ExtractedArchitecture.
Variable requirements : list Requirement.

Lemma containerElements_ids containers els :
  Forall2 (λ c e, containerElement arch requirements c = Ok e) containers els →
  el_id <$> els = cont_id <$> containers.
Proof.
  induction 1 as [|c e containers els Hc _ IH]; [done |]. rewrite !fmap_cons.
  apply containerElement_requirements in Hc as (-> & _). by rewrite IH.
Qed.

(** A relationship end names a referenced external system as soon as it
    names an external system at all. *)
Lemma endpoint_referenced rels (external_systems : list ArchitectureExternalSystem) rel :
  rel ∈ rels →
  (rel_from rel ∈ ext_id <$> filter (λ sys, referencedAtLevel2 rels sys) external_systems
     ↔ rel_from rel ∈ ext_id <$> external_systems) ∧
  (rel_to rel ∈ ext_id <$> filter (λ sys, referencedAtLevel2 rels sys) external_systems
     ↔ rel_to rel ∈ ext_id <$> external_systems).
Proof.
  intros Hrel. rewrite !list_elem_of_fmap.
  split; (split; [intros (sys & ? & [_ ?]%list_elem_of_filter); eauto |]).
  all: intros (sys & Hid & Hsys); exists sys; split; [done |].
  all: apply list_elem_of_filter; split; [|done].
  all: apply Is_true_true, existsb_exists; exists rel.
  all: split; [by apply list_elem_of_In |].
  all: rewrite Hid, String.eqb_refl; by rewrite ?orb_true_r.
Qed.

Lemma level2_elements_ids ds d :
  buildLevel2Diagrams now arch requirements = Ok ds → d ∈ ds →
  ∃ containers ctx external_systems rels,
    level2_containers arch = Some containers ∧ level1_context arch = Some ctx ∧
    ctx_external_systems ctx = Some external_systems ∧
    level2_relationships arch = Some rels ∧
    d_relationships d = level2Relationship <$> rels ∧
    el_id <$> d_elements d
      = (cont_id <$> containers) ++
        (ext_id <$> filter (λ sys, referencedAtLevel2 rels sys) external_systems).
Proof.
  intros (containers & els & ctx & exts & rels & d' & ? & Hall & ? & ? & ? & -> & _ & _
          & Hel & Hrel & _)%buildLevel2Diagrams_Ok ->%list_elem_of_singleton.
  exists containers, ctx, exts, rels. do 5 (split; [done |]).
  rewrite Hel, fmap_app, (containerElements_ids _ _ Hall), <- list_fmap_compose.
  done.
Qed.

End Relationships.




(** ** The diagrams of a run, level by level *)

Lemma run_diagrams env projectId requirements w ds w' arch w1 :
  generateC4Diagrams env projectId requirements w = (Ok ds, w') →
  extractArchitecture env requirements w = (Ok arch, w1) →
  ∃ d1 d2 d3s,
    ds = d1 :: d2 :: d3s ∧
    buildLevel1Diagram (clock env) arch requirements = Ok d1 ∧
    buildLevel2Diagrams (clock env) arch requirements = Ok [d2] ∧
    buildLevel3Diagrams (clock env) arch requirements = Ok d3s.
Proof.
  intros (arch' & w1' & d1 & d2s & d3s & Hex & H1 & H2 & H3 & -> & _)%generateC4Diagrams_Ok Harch.
  rewrite Harch in Hex. injection Hex as <- <-.
  pose proof (buildLevel2Diagrams_Ok _ _ _ _ H2)
    as (? & ? & ? & ? & ? & d2 & _ & _ & _ & _ & _ & -> & _).
  by exists d1, d2, d3s.
Qed.

Lemma referencedAtLevel2_true rels sys :
  referencedAtLevel2 rels sys = true ↔
  ∃ rel, rel ∈ rels ∧ (rel_from rel = ext_id sys ∨ rel_to rel = ext_id sys).
Proof.
  unfold referencedAtLevel2. rewrite existsb_exists.
  split; intros (rel & Hrel & Hends); exists rel.
  - apply list_elem_of_In in Hrel. by rewrite orb_true_iff, !String.eqb_eq in Hends.
  - apply list_elem_of_In in Hrel. by rewrite orb_true_iff, !String.eqb_eq.
Qed.

(** C9: in every run that returns, the element of an extracted external
    system is in the Level-2 diagram exactly when the id of the system is
    the [from] or the [to] of some extracted Level-2 relationship; it is in
    the Level-1 diagram in any case, and in no Level-3 diagram. *)
Theorem external_systems_at_level2 env projectId requirements w ds w' arch w1 :
  generateC4Diagrams env projectId requirements w = (Ok ds, w') →
  extractArchitecture env requirements w = (Ok arch, w1) →
  ∃ ctx external_systems rels2 d1 d2 d3s,
    level1_context arch = Some ctx ∧ ctx_external_systems ctx = Some external_systems ∧
    level2_relationships arch = Some rels2 ∧
    ds = d1 :: d2 :: d3s ∧ d_level d1 = 1 ∧ d_level d2 = 2 ∧
    ∀ sys, sys ∈ external_systems →
      externalElement sys ∈ d_elements d1 ∧
      (externalElement sys ∈ d_elements d2 ↔
         ∃ rel, rel ∈ rels2 ∧ (rel_from rel = ext_id sys ∨ rel_to rel = ext_id sys)) ∧
      (∀ d3, d3 ∈ d3s → d_level d3 = 3 ∧ externalElement sys ∉ d_elements d3).
Proof.
  intros Hrun Harch.
  destruct (run_diagrams _ _ _ _ _ _ _ _ Hrun Harch) as (d1 & d2 & d3s & -> & H1 & H2 & H3).
  apply buildLevel1Diagram_Ok in H1
    as (ctx & sys0 & containers & people & exts & rels1 & Hctx & _ & _ & _ & Hexts & _
        & Hlevel1 & _ & Hel1 & _).
  apply buildLevel2Diagrams_Ok in H2
    as (containers' & els & ctx' & exts' & rels2 & d2' & _ & Hall & Hctx' & Hexts' & Hrels2
        & [= <-] & Hlevel2 & _ & Hel2 & _).
  assert (ctx' = ctx) as -> by congruence.
  assert (exts' = exts) as -> by congruence.
  exists ctx, exts, rels2, d1, d2, d3s. do 6 (split; [done |]).
  intros sys Hsys. split; [|split].
  - rewrite Hel1. right. apply elem_of_app. right. by apply list_elem_of_fmap_2.
  - rewrite Hel2, elem_of_app, <- referencedAtLevel2_true. split.
    + intros [Hin | Hin].
      * apply list_elem_of_lookup in Hin as [i Hi].
        destruct (Forall2_lookup_r _ _ _ _ _ Hall Hi) as (c & _ & Hc).
        by apply containerElement_requirements in Hc as (_ & ? & _).
      * apply list_elem_of_fmap in Hin as (sys' & Heq & [Href _]%list_elem_of_filter).
        apply Is_true_true in Href. unfold referencedAtLevel2 in *.
        apply (f_equal el_id) in Heq. simpl in Heq. by rewrite Heq.
    + intros Href. right. apply list_elem_of_fmap_2, list_elem_of_filter.
      split; [by apply Is_true_true | done].
  - intros d3 Hd3.
    destruct (buildLevel3Diagrams_elem _ _ _ _ _ H3 Hd3) as (byContainer & k & _ & _ & Hfor).
    apply level3DiagramFor_Some in Hfor
      as (comps & ? & ? & ? & _ & _ & _ & _ & _ & _ & Hlevel3 & _ & Hel3 & _).
    split; [done |]. rewrite Hel3. by intros (comp & ? & _)%list_elem_of_fmap.
Qed.

(** The rule at the shop: the payment system, an end of the Level-2
    relationship, is in the container diagram; the mailer is in the context
    diagram only. *)
Lemma external_systems_at_level2_witness :
  ∃ d1 d2 d3,
    (generateC4Diagrams (Samples.answering Samples.shop) "demo" [Samples.userLogin]
                        Samples.emptyWorld).1 = Ok [d1; d2; d3] ∧
    externalElement Samples.payments ∈ d_elements d2 ∧
    (externalElement Samples.mailer ∉ d_elements d2) ∧
    externalElement Samples.mailer ∈ d_elements d1.
Proof.
  evaluate (generateC4Diagrams (Samples.answering Samples.shop) "demo" [Samples.userLogin]
                               Samples.emptyWorld).1 Hres.
  match type of Hres with _ = Ok [?a; ?b; ?c] => exists a, b, c end.
  split; [exact Hres |].
  assert ((extractArchitecture (Samples.answering Samples.shop) [Samples.userLogin]
                               Samples.emptyWorld).1 = Ok Samples.shop) as Harch
    by reflexivity.
  destruct (external_systems_at_level2 _ _ _ _ _ _ _ _
              (pair_of_fst _ _ Hres) (pair_of_fst _ _ Harch))
    as (ctx & exts & rels2 & d1' & d2' & d3s & [= <-] & [= <-] & [= <-] & [= <- <- _]
        & _ & _ & Hall).
  destruct (Hall Samples.payments ltac:(left)) as (_ & Hpay & _).
  destruct (Hall Samples.mailer ltac:(right; left)) as (Hmail1 & Hmail2 & _).
  split; [|split; [|exact Hmail1]].
  - apply Hpay. eexists. split; [left | right; reflexivity].
  - intros (rel & Hrel & Hends)%Hmail2.
    apply list_elem_of_singleton in Hrel as ->. by destruct Hends.
Defined.

(** C10: in every run that returns, each Level-3 diagram has as parent a
    key of the component map that holds at least one component and is the
    id of a declared container; a key that is the id of no declared
    container is the parent of no diagram, and the run returns all the
    same. *)
Theorem level3_only_for_declared_containers env projectId requirements w ds w' arch w1 :
  generateC4Diagrams env projectId requirements w = (Ok ds, w') →
  extractArchitecture env requirements w = (Ok arch, w1) →
  ∃ byContainer containers,
    level3_components arch = Some byContainer ∧ level2_containers arch = Some containers ∧
    (∀ d, d ∈ ds → d_level d = 3 →
       ∃ containerId components,
         d_parentId d = Some containerId ∧ containerId ∈ Js.keys byContainer ∧
         Js.own byContainer containerId = Some components ∧ components ≠ [] ∧
         containerId ∈ cont_id <$> containers) ∧
    (∀ containerId, containerId ∈ Js.keys byContainer →
       containerId ∉ cont_id <$> containers →
       ∀ d, d ∈ ds → d_level d = 3 → d_parentId d ≠ Some containerId).
Proof.
  intros Hrun Harch.
  destruct (run_diagrams _ _ _ _ _ _ _ _ Hrun Harch) as (d1 & d2 & d3s & -> & H1 & H2 & H3).
  pose proof (buildLevel3Diagrams_Ok _ _ _ _ H3) as (byContainer & pushed & Hcomps & _ & _).
  apply buildLevel1Diagram_Ok in H1
    as (? & ? & containers & ? & ? & ? & _ & _ & Hconts & _ & _ & _ & Hlevel1 & _).
  apply buildLevel2Diagrams_Ok in H2
    as (? & ? & ? & ? & ? & d2' & _ & _ & _ & _ & _ & [= <-] & Hlevel2 & _).
  exists byContainer, containers. do 2 (split; [done |]).
  assert (∀ d, d ∈ d1 :: d2 :: d3s → d_level d = 3 →
            ∃ containerId components,
              d_parentId d = Some containerId ∧ containerId ∈ Js.keys byContainer ∧
              Js.own byContainer containerId = Some components ∧ components ≠ [] ∧
              containerId ∈ cont_id <$> containers) as Hparent.
  { intros d Hd Hlevel. rewrite !elem_of_cons in Hd. destruct Hd as [-> | [-> | Hd]].
    - congruence.
    - congruence.
    - destruct (buildLevel3Diagrams_elem _ _ _ _ _ H3 Hd)
        as (byContainer' & k & Hcomps' & Hk & Hfor).
      assert (byContainer' = byContainer) as -> by congruence.
      apply level3DiagramFor_Some in Hfor
        as (comps & containers' & c & ? & Hown & Hne & Hconts' & Hc & Hid & _ & _ & Hp & _).
      assert (containers' = containers) as -> by congruence.
      exists k, comps. do 4 (split; [done |]). subst k. by apply list_elem_of_fmap_2. }
  split; [done |].
  intros k _ Hk d Hd Hlevel Hp.
  destruct (Hparent d Hd Hlevel) as (k' & ? & Hp' & _ & _ & _ & Hin). congruence.
Qed.

(** The guard at the shop: the components filed under the undeclared
    container [ghost] yield no diagram; the only Level-3 diagram is that of
    the declared container [auth]. *)
Lemma level3_only_for_declared_containers_witness :
  ∃ d1 d2 d3,
    (generateC4Diagrams (Samples.answering Samples.shop) "demo" [Samples.userLogin]
                        Samples.emptyWorld).1 = Ok [d1; d2; d3] ∧
    d_level d3 = 3 ∧ d_parentId d3 = Some "auth" ∧ d_parentId d3 ≠ Some "ghost".
Proof.
  evaluate (generateC4Diagrams (Samples.answering Samples.shop) "demo" [Samples.userLogin]
                               Samples.emptyWorld).1 Hres.
  match type of Hres with _ = Ok [?a; ?b; ?c] => exists a, b, c end.
  split; [exact Hres |]. do 2 (split; [reflexivity |]).
  assert ((extractArchitecture (Samples.answering Samples.shop) [Samples.userLogin]
                               Samples.emptyWorld).1 = Ok Samples.shop) as Harch
    by reflexivity.
  destruct (level3_only_for_declared_containers _ _ _ _ _ _ _ _
              (pair_of_fst _ _ Hres) (pair_of_fst _ _ Harch))
    as (byContainer & containers & [= <-] & [= <-] & _ & Hskip).
  apply Hskip; [right; left | | do 2 right; left | reflexivity].
  cbn [fmap list_fmap cont_id]. rewrite !elem_of_cons.
  intros [? | [? | ?%elem_of_nil]]; done.
Defined.

(** ** Containers and their component diagrams *)

Section Children.

Variable now : string.
Variable arch : ExtractedArchitecture.
Variable requirements : list Requirement.
Variable byContainer : Js.JsObject (list ArchitectureComponent).

Lemma own_in_keys {A} (o : Js.JsObject A) k v : Js.own o k = Some v → k ∈ Js.keys o.
Proof.
  induction o as [|[k' v'] o IH]; simpl; [done |].
  destruct (String.eqb k' k) eqn:Heq.
  - apply String.eqb_eq in Heq as ->. intros _. left.
  - intros H. right. by apply IH.
Qed.

Lemma below_absent_key ks pushed containerId :
  Forall2 (λ k o, level3DiagramFor now arch requirements byContainer k = Ok o) ks pushed →
  containerId ∉ ks →
  filter (λ d, d_level d = 3 ∧ d_parentId d = Some containerId) (omap id pushed) = [].
Proof.
  induction 1 as [|k o ks pushed Hk _ IH]; [done |].
  rewrite not_elem_of_cons. intros [Hne Hnotin]. simpl.
  destruct o as [d|]; simpl; [|by apply IH].
  rewrite filter_cons_False; [by apply IH |].
  apply level3DiagramFor_Some in Hk
    as (? & ? & ? & ? & _ & _ & _ & _ & _ & _ & _ & Hp & _).
  intros [_ Hp']. congruence.
Qed.

Lemma below_present_key ks pushed containerId d3 :
  Forall2 (λ k o, level3DiagramFor now arch requirements byContainer k = Ok o) ks pushed →
  NoDup ks → containerId ∈ ks →
  level3DiagramFor now arch requirements byContainer containerId = Ok (Some d3) →
  filter (λ d, d_level d = 3 ∧ d_parentId d = Some containerId) (omap id pushed) = [d3].
Proof.
  intros Hall Hnd Hin Hd3. induction Hall as [|k o ks pushed Hk Hall IH]; [by apply elem_of_nil in Hin |].
  apply NoDup_cons in Hnd as [Hnotin Hnd].
  destruct (decide (k = containerId)) as [-> | Hne].
  - rewrite Hd3 in Hk. injection Hk as <-. simpl.
    apply level3DiagramFor_Some in Hd3
      as (? & ? & ? & ? & _ & _ & _ & _ & _ & _ & Hlevel & Hp & _).
    rewrite filter_cons_True by done.
    f_equal. by eapply below_absent_key.
  - apply elem_of_cons in Hin as [-> | Hin]; [done |].
    destruct o as [d|]; simpl; [|by apply IH].
    rewrite filter_cons_False; [by apply IH |].
    apply level3DiagramFor_Some in Hk
      as (? & ? & ? & ? & _ & _ & _ & _ & _ & _ & _ & Hp & _).
    intros [_ Hp']. congruence.
Qed.

(** A container element with children has its component diagram. *)
Lemma children_have_diagram containers c e children d3s :
  level3_components arch = Some byContainer →
  level2_containers arch = Some containers → c ∈ containers →
  containerElement arch requirements c = Ok e →
  el_children e = Some children → children ≠ [] →
  buildLevel3Diagrams now arch requirements = Ok d3s →
  ∃ d3, level3DiagramFor now arch requirements byContainer (cont_id c) = Ok (Some d3) ∧
        cont_id c ∈ Js.keys byContainer ∧
        el_id <$> d_elements d3 = children.
Proof.
  intros Hcomps Hconts Hc He Hch Hne H3.
  apply containerElement_requirements in He as (Hid & _ & _ & children' & Hchildren & Hch').
  assert (children' = children) as -> by congruence.
  unfold childrenOf in Hchildren. rewrite Hcomps in Hchildren. simpl in Hchildren.
  unfold Js.get in Hchildren.
  destruct (Js.own byContainer (cont_id c)) as [comps|] eqn:Hown;
    [|by destruct (existsb _ _); [|injection Hchildren as <-]].
  injection Hchildren as <-.
  pose proof (own_in_keys _ _ _ Hown) as Hkey.
  apply buildLevel3Diagrams_Ok in H3 as (byContainer' & pushed & Hcomps' & Hall & _).
  assert (byContainer' = byContainer) as -> by congruence.
  apply list_elem_of_lookup in Hkey as Hi. destruct Hi as [i Hi].
  destruct (Forall2_lookup_l _ _ _ _ _ Hall Hi) as (o & _ & Hfor).
  unfold level3DiagramFor in Hfor. rewrite Hown, Hconts in Hfor.
  destruct comps as [|comp comps]; [done |]. simpl in Hfor.
  destruct (find _ containers) as [c'|] eqn:Hfind.
  - destruct (level3RelationshipsOf arch (cont_id c)) as [rels|err] eqn:Hrels; [|done].
    eexists. split.
    + unfold level3DiagramFor. rewrite Hown, Hconts. simpl. rewrite Hfind, Hrels. done.
    + split; [done |]. simpl. by rewrite <- list_fmap_compose.
  - exfalso. apply list_elem_of_In in Hc.
    apply (find_none _ _ Hfind) in Hc. simpl in Hc. by rewrite String.eqb_refl in Hc.
Qed.

End Children.

(** C8: in every run that returns, for each container element of the
    Level-2 diagram with a non-empty [children] list, exactly one of the
    returned diagrams is a Level-3 diagram whose parent is the id of that
    element, and the ids of its elements are that [children] list. The keys
    of the component map are distinct, as those of every object are. *)
Theorem children_have_component_diagram
    env projectId requirements w ds w' arch w1 byContainer :
  generateC4Diagrams env projectId requirements w = (Ok ds, w') →
  extractArchitecture env requirements w = (Ok arch, w1) →
  level3_components arch = Some byContainer → NoDup (Js.keys byContainer) →
  ∀ d2 e children,
    d2 ∈ ds → d_level d2 = 2 → e ∈ d_elements d2 → el_type e = ty_container →
    el_children e = Some children → children ≠ [] →
    ∃ d3, filter (λ d, d_level d = 3 ∧ d_parentId d = Some (el_id e)) ds = [d3] ∧
          el_id <$> d_elements d3 = children.
Proof.
  intros Hrun Harch Hcomps Hnd d2 e children Hd2 Hlevel He Htype Hch Hne.
  destruct (run_diagrams _ _ _ _ _ _ _ _ Hrun Harch) as (d1 & d2' & d3s & -> & H1 & H2 & H3).
  pose proof (buildLevel1Diagram_Ok _ _ _ _ H1)
    as (? & ? & ? & ? & ? & ? & _ & _ & _ & _ & _ & _ & Hlevel1 & _).
  pose proof (buildLevel2Diagrams_Ok _ _ _ _ H2)
    as (containers & els & ? & ? & ? & d2'' & Hconts & Hall & _ & _ & _ & [= <-] & Hlevel2
        & _ & Hel2 & _).
  assert (d2 = d2') as ->.
  { rewrite !elem_of_cons in Hd2. destruct Hd2 as [-> | [-> | Hd2]]; [congruence | done |].
    destruct (buildLevel3Diagrams_elem _ _ _ _ _ H3 Hd2) as (? & ? & _ & _ & Hfor).
    apply level3DiagramFor_Some in Hfor
      as (? & ? & ? & ? & _ & _ & _ & _ & _ & _ & Hlevel3 & _). congruence. }
  assert (∃ c, c ∈ containers ∧ containerElement arch requirements c = Ok e) as (c & Hc & Hce).
  { rewrite Hel2 in He. apply elem_of_app in He as [He | He].
    - apply list_elem_of_lookup in He as [i Hi].
      destruct (Forall2_lookup_r _ _ _ _ _ Hall Hi) as (c & Hci & Hc).
      exists c. split; [|done]. apply list_elem_of_lookup. eauto.
    - by apply list_elem_of_fmap in He as (sys & -> & _). }
  destruct (children_have_diagram _ _ _ _ _ _ _ _ _ Hcomps Hconts Hc Hce Hch Hne H3)
    as (d3 & Hfor & Hkey & Hids).
  exists d3. split; [|done].
  apply containerElement_requirements in Hce as (-> & _).
  rewrite filter_cons_False by (intros [? _]; congruence).
  rewrite filter_cons_False by (intros [? _]; congruence).
  apply buildLevel3Diagrams_Ok in H3 as (byContainer' & pushed & Hcomps' & Hpushed & ->).
  assert (byContainer' = byContainer) as -> by congruence.
  by eapply below_present_key.
Qed.

(** The link at the shop: the container [auth] lists two children, and the
    one Level-3 diagram below it holds exactly those two components. *)
Lemma children_have_component_diagram_witness :
  ∃ d1 d2 d3 e,
    (generateC4Diagrams (Samples.answering Samples.shop) "demo" [Samples.userLogin]
                        Samples.emptyWorld).1 = Ok [d1; d2; d3] ∧
    e ∈ d_elements d2 ∧ el_id e = "auth" ∧
    el_children e = Some ["login-ui"; "auth-api"] ∧
    filter (λ d, d_level d = 3 ∧ d_parentId d = Some "auth") [d1; d2; d3] = [d3] ∧
    el_id <$> d_elements d3 = ["login-ui"; "auth-api"].
Proof.
  evaluate (generateC4Diagrams (Samples.answering Samples.shop) "demo" [Samples.userLogin]
                               Samples.emptyWorld).1 Hres.
  match type of Hres with
  | _ = Ok [?a; ?b; ?c] =>
      match eval cbn [d_elements] in (d_elements b) with
      | ?e :: _ => exists a, b, c, e
      end
  end.
  split; [exact Hres |]. split; [left |]. do 2 (split; [reflexivity |]).
  assert ((extractArchitecture (Samples.answering Samples.shop) [Samples.userLogin]
                               Samples.emptyWorld).1 = Ok Samples.shop) as Harch
    by reflexivity.
  assert (NoDup ["auth"; "ghost"]) as Hnd.
  { apply NoDup_cons. split; [|apply NoDup_singleton].
    by intros ?%list_elem_of_singleton. }
  match goal with
  | |- filter _ [?a; ?b; ?c] = _ ∧ _ =>
      match eval cbn [d_elements] in (d_elements b) with
      | ?e :: _ =>
          destruct (children_have_component_diagram _ _ _ _ _ _ _ _ _
                      (pair_of_fst _ _ Hres) (pair_of_fst _ _ Harch) eq_refl Hnd
                      b e _ ltac:(right; left) eq_refl ltac:(left) eq_refl eq_refl
                      ltac:(discriminate))
            as (d3' & Hfilter & Hids);
          assert (c ∈ [d3']) as Heq%list_elem_of_singleton
      end
  end.
  { rewrite <- Hfilter. apply list_elem_of_filter.
    split; [split; reflexivity | do 2 right; left]. }
  subst d3'. split; [exact Hfilter | exact Hids].
Defined.

(** ** The diagram store *)

Section Store.

Variable env : Env.

Lemma saveDiagrams_Ok projectId diagrams w :
  ∃ w', saveDiagrams env projectId diagrams w = (Ok (), w') ∧
        requests w' = requests w ∧
        files w' !! pathJoin (c4DirOf env projectId) "index.json"
          = Some (IndexDoc (indexEntry <$> diagrams) (clock env)).
Proof.
  unfold saveDiagrams. eexists. split; [done |]. simpl. split; [|by rewrite lookup_insert_eq].
  set (w1 := if existsSync w _ then w else _).
  assert (requests w1 = requests w) as <- by (subst w1; by destruct (existsSync w _)).
  generalize w1. clear w1. induction diagrams as [|d diagrams IH]; intros w1; [done |].
  simpl. by rewrite IH.
Qed.

Lemma loadDiagramRef_Ok w c4Dir diagramRef :
  pathJoin c4Dir (ix_id diagramRef +:+ ".json") ∉ dirs w →
  loadDiagramRef w c4Dir diagramRef
    = Ok (files w !! pathJoin c4Dir (ix_id diagramRef +:+ ".json")).
Proof.
  intros Hdir. unfold loadDiagramRef, existsSync, readFileSync.
  rewrite (bool_decide_eq_false_2 _ Hdir). simpl.
  destruct (files w !! _) as [doc|] eqn:Hfile.
  - by rewrite bool_decide_eq_true_2.
  - rewrite bool_decide_eq_false_2; [done |]. apply is_Some_None.
Qed.

Lemma loadDiagramRefs_Ok w c4Dir (refs : list IndexEntry) :
  (∀ ref, ref ∈ refs → pathJoin c4Dir (ix_id ref +:+ ".json") ∉ dirs w) →
  mapR (loadDiagramRef w c4Dir) refs
    = Ok ((λ ref, files w !! pathJoin c4Dir (ix_id ref +:+ ".json")) <$> refs).
Proof.
  induction refs as [|ref refs IH]; intros Hbodies; [done |]. simpl.
  rewrite loadDiagramRef_Ok by (apply Hbodies; left).
  rewrite IH by (intros ref' Href'; apply Hbodies; by right). done.
Qed.

Lemma omap_id_fmap {A B} (f : A → option B) (xs : list A) :
  omap id (f <$> xs) = omap f xs.
Proof.
  induction xs as [|x xs IH]; [done |]. simpl.
  destruct (f x); simpl; [f_equal |]; exact IH.
Qed.

End Store.

(** C6 (as the code has it): a load whose index is readable returns, in
    index order, the documents of the indexed bodies that exist, and skips
    every indexed id whose body file does not exist; it raises no error for
    a missing body. (No body path is a directory.) *)
Theorem getDiagrams_skips_missing_bodies env projectId w refs generatedAt :
  existsSync w (c4DirOf env projectId) = true →
  files w !! pathJoin (c4DirOf env projectId) "index.json" = Some (IndexDoc refs generatedAt) →
  (∀ ref, ref ∈ refs → pathJoin (c4DirOf env projectId) (ix_id ref +:+ ".json") ∉ dirs w) →
  getDiagrams env projectId w
    = (Ok (omap (λ ref, files w !! pathJoin (c4DirOf env projectId) (ix_id ref +:+ ".json"))
                refs), w).
Proof.
  intros Hdir Hindex Hbodies. unfold getDiagrams. rewrite Hdir. simpl.
  assert (existsSync w (pathJoin (c4DirOf env projectId) "index.json") = true) as ->.
  { unfold existsSync. rewrite Hindex. rewrite (bool_decide_eq_true_2 (is_Some _)) by eauto.
    apply orb_true_r. }
  simpl. unfold readFileSync. rewrite Hindex. simpl.
  rewrite loadDiagramRefs_Ok by done. simpl. by rewrite omap_id_fmap.
Qed.

(** The load of the store whose container diagram body was removed: the
    index names two diagrams, the load returns the one that is left. *)
Lemma getDiagrams_skips_missing_bodies_witness :
  ∃ entry1 entry2 generatedAt d1,
    files Samples.bodyRemoved !! "projects/demo/c4-diagrams/index.json"
      = Some (IndexDoc [entry1; entry2] generatedAt) ∧
    ix_id entry2 = "level2-containers" ∧
    getDiagrams Samples.failingAdapter "demo" Samples.bodyRemoved
      = (Ok [DiagramDoc d1], Samples.bodyRemoved).
Proof.
  evaluate (files Samples.bodyRemoved !! "projects/demo/c4-diagrams/index.json") Hindex.
  evaluate (getDiagrams Samples.failingAdapter "demo" Samples.bodyRemoved).1 Hres.
  match type of Hindex with
  | _ = Some (IndexDoc [?e1; ?e2] ?g) =>
      match type of Hres with
      | _ = Ok [DiagramDoc ?d] => exists e1, e2, g, d
      end
  end.
  split; [exact Hindex |]. split; [reflexivity |].
  rewrite <- Hres.
  assert (existsSync Samples.bodyRemoved (c4DirOf Samples.failingAdapter "demo") = true)
    as Hdir by (vm_cast_no_check (eq_refl true)).
  rewrite (getDiagrams_skips_missing_bodies Samples.failingAdapter "demo"
             Samples.bodyRemoved _ _ Hdir Hindex); [reflexivity |].
  intros ref _. by vm_compute.
Defined.

(** C6 (as the specification has it) fails: the index names two diagrams,
    the body of the second is missing, and the load returns the first
    without any error. *)
Lemma missing_body_returns_partial_list :
  ∃ entry1 entry2 generatedAt d1,
    files Samples.bodyRemoved !! "projects/demo/c4-diagrams/index.json"
      = Some (IndexDoc [entry1; entry2] generatedAt) ∧
    files Samples.bodyRemoved
      !! pathJoin (c4DirOf Samples.failingAdapter "demo") (ix_id entry2 +:+ ".json") = None ∧
    (getDiagrams Samples.failingAdapter "demo" Samples.bodyRemoved).1 = Ok [DiagramDoc d1].
Proof.
  evaluate (files Samples.bodyRemoved !! "projects/demo/c4-diagrams/index.json") Hindex.
  evaluate (getDiagrams Samples.failingAdapter "demo" Samples.bodyRemoved).1 Hres.
  match type of Hindex with
  | _ = Some (IndexDoc [?e1; ?e2] ?g) =>
      match type of Hres with
      | _ = Ok [DiagramDoc ?d] => exists e1, e2, g, d
      end
  end.
  split; [exact Hindex |]. split; [|exact Hres].
  vm_cast_no_check (eq_refl (@None JsonDoc)).
Qed.

(** ** Extraction, fallback and failure *)

Section Extraction.

Variable env : Env.

Lemma extractArchitecture_with_template requirements w promptTemplate :
  getPromptContent env "architecture-c4-extraction" = Some promptTemplate →
  promptTemplate ≠ "" →
  extractArchitecture env requirements w =
    (Ok match chatCompletion env (promptFor promptTemplate requirements) with
        | Some reply =>
            default (getFallbackArchitecture requirements) (parseJSON env (jsonContentOf reply))
        | None => getFallbackArchitecture requirements
        end,
     logRequest (promptFor promptTemplate requirements) w).
Proof.
  intros Htpl Hne. unfold extractArchitecture. rewrite Htpl.
  destruct promptTemplate as [|c tpl]; [done |].
  unfold tryCatch, mbind, M_bind, chat, lift, mret, M_ret.
  destruct (chatCompletion env _) as [reply|]; [|done].
  by destruct (parseJSON env _).
Qed.

Lemma generateC4Diagrams_after projectId requirements w arch w1 :
  extractArchitecture env requirements w = (Ok arch, w1) →
  generateC4Diagrams env projectId requirements w =
    match buildLevel1Diagram (clock env) arch requirements,
          buildLevel2Diagrams (clock env) arch requirements,
          buildLevel3Diagrams (clock env) arch requirements with
    | Ok d1, Ok d2s, Ok d3s =>
        (Ok (d1 :: d2s ++ d3s), (saveDiagrams env projectId (d1 :: d2s ++ d3s) w1).2)
    | Throw e, _, _ | Ok _, Throw e, _ | Ok _, Ok _, Throw e => (Throw e, w1)
    end.
Proof.
  intros Harch. unfold generateC4Diagrams, mbind, M_bind, mret, M_ret, lift. rewrite Harch.
  destruct (buildLevel1Diagram _ arch requirements) as [d1|e]; [|done].
  destruct (buildLevel2Diagrams _ arch requirements) as [d2s|e]; [|done].
  destruct (buildLevel3Diagrams _ arch requirements) as [d3s|e]; [|done].
  done.
Qed.

Lemma missing_prompt_throws projectId requirements w :
  getPromptContent env "architecture-c4-extraction" = None →
  generateC4Diagrams env projectId requirements w = (Throw PromptNotFound, w).
Proof.
  intros Htpl. unfold generateC4Diagrams, extractArchitecture, mbind, M_bind, lift.
  by rewrite Htpl.
Qed.

End Extraction.

Section BuilderFailures.

Variable now : string.
Variable arch : ExtractedArchitecture.
Variable requirements : list Requirement.

(** Peels the binds of a hypothesis [m = Throw e] whose steps are
    [required] reads. *)
Ltac inv_Throw H :=
  repeat (apply bind_Throw in H as [H | (? & _ & H)];
          [by apply required_Throw in H as [_ ->] |]).

Lemma buildLevel1Diagram_Throw e :
  buildLevel1Diagram now arch requirements = Throw e → e = TypeError.
Proof. unfold buildLevel1Diagram. intros H. inv_Throw H. done. Qed.

Lemma childrenOf_Throw containerId e :
  childrenOf arch containerId = Throw e → e = TypeError.
Proof.
  unfold childrenOf. intros H. inv_Throw H.
  destruct (Js.get _ _); by try injection H as <-.
Qed.

Lemma level3RelationshipsOf_Throw containerId e :
  level3RelationshipsOf arch containerId = Throw e → e = TypeError.
Proof.
  unfold level3RelationshipsOf. intros H. inv_Throw H.
  destruct (Js.get _ _); by try injection H as <-.
Qed.

Lemma buildLevel2Diagrams_Throw e :
  buildLevel2Diagrams now arch requirements = Throw e → e = TypeError.
Proof.
  unfold buildLevel2Diagrams. intros H. inv_Throw H.
  apply bind_Throw in H as [H | (? & _ & H)].
  - apply mapR_Throw in H as (c & _ & H). unfold containerElement in H.
    apply bind_Throw in H as [H | (? & _ & H)]; [|done].
    by apply childrenOf_Throw in H.
  - inv_Throw H. done.
Qed.

Lemma buildLevel3Diagrams_Throw e :
  buildLevel3Diagrams now arch requirements = Throw e → e = TypeError.
Proof.
  unfold buildLevel3Diagrams. intros H. inv_Throw H.
  apply bind_Throw in H as [H | (? & _ & H)]; [|done].
  apply mapR_Throw in H as (k & _ & H). unfold level3DiagramFor in H.
  destruct (Js.own _ k) as [[|comp comps]|]; [done | | done].
  inv_Throw H. destruct (find _ _); [|done].
  apply bind_Throw in H as [H | (? & _ & H)]; [|done].
  by apply level3RelationshipsOf_Throw in H.
Qed.

(** A builder reaches into each object and array an incomplete answer may
    lack. *)
Lemma incomplete_builder_fails d1 d2s d3s :
  Spec.incomplete arch →
  buildLevel1Diagram now arch requirements = Ok d1 →
  buildLevel2Diagrams now arch requirements = Ok d2s →
  buildLevel3Diagrams now arch requirements = Ok d3s → False.
Proof.
  intros Hinc
    (ctx & ? & ? & ? & ? & ? & Hctx & ? & ? & ? & ? & ? & _)%buildLevel1Diagram_Ok
    (? & ? & ? & ? & ? & ? & _ & _ & _ & _ & ? & _)%buildLevel2Diagrams_Ok
    (? & ? & ? & _)%buildLevel3Diagrams_Ok.
  unfold Spec.incomplete in Hinc. rewrite Hctx in Hinc.
  destruct Hinc as [[?|[?|[?|?]]]|[?|[?|?]]]; congruence.
Qed.

End BuilderFailures.

Section Fallback.

Variable now : string.
Variable requirements : list Requirement.

Lemma fallback_level1 :
  ∃ d1,
    buildLevel1Diagram now (getFallbackArchitecture requirements) requirements = Ok d1 ∧
    d_id d1 = "level1-context" ∧ d_level d1 = 1 ∧ d_parentId d1 = None ∧
    d_elements d1 =
      [ {| el_id := "main-system"; el_type := ty_system; el_name := "System";
           el_description := "Main system based on requirements"; el_technology := None;
           el_requirements := req_id <$> requirements;
           el_children := Some ["webapp"; "api"] |};
        {| el_id := "user"; el_type := ty_person; el_name := "User";
           el_description := "End User: Interacts with the system"; el_technology := None;
           el_requirements := []; el_children := None |} ] ∧
    d_relationships d1 =
      [ {| c4rel_from := "user"; c4rel_to := "main-system"; c4rel_label := "Uses";
           c4rel_technology := Some "HTTPS" |} ] ∧
    d_requirementReferences d1 = req_id <$> requirements.
Proof. eexists. split; [reflexivity |]. by repeat split. Qed.

Lemma fallback_level2 :
  ∃ d2,
    buildLevel2Diagrams now (getFallbackArchitecture requirements) requirements = Ok [d2] ∧
    d_id d2 = "level2-containers" ∧ d_level d2 = 2 ∧ d_parentId d2 = Some "main-system" ∧
    d_elements d2 =
      [ {| el_id := "webapp"; el_type := ty_container; el_name := "Web Application";
           el_description := "User interface"; el_technology := Some "Web Browser";
           el_requirements :=
             tracedRequirements requirements ["Display UI"; "Handle user input"];
           el_children := Some [] |};
        {| el_id := "api"; el_type := ty_container; el_name := "API";
           el_description := "Backend API"; el_technology := Some "REST API";
           el_requirements :=
             tracedRequirements requirements ["Business logic"; "Data access"];
           el_children := Some [] |} ] ∧
    d_relationships d2 =
      [ {| c4rel_from := "webapp"; c4rel_to := "api"; c4rel_label := "Makes API calls";
           c4rel_technology := Some "HTTPS" |} ] ∧
    d_requirementReferences d2 = req_id <$> requirements.
Proof. eexists. split; [reflexivity |]. by repeat split. Qed.

Lemma fallback_level3 :
  buildLevel3Diagrams now (getFallbackArchitecture requirements) requirements = Ok [].
Proof. reflexivity. Qed.

End Fallback.

(** A run whose extraction falls back returns the two fallback diagrams. *)
Lemma generateC4Diagrams_fallback env projectId requirements w w1 :
  extractArchitecture env requirements w = (Ok (getFallbackArchitecture requirements), w1) →
  ∃ d1 d2,
    buildLevel1Diagram (clock env) (getFallbackArchitecture requirements) requirements = Ok d1 ∧
    buildLevel2Diagrams (clock env) (getFallbackArchitecture requirements) requirements
      = Ok [d2] ∧
    generateC4Diagrams env projectId requirements w
      = (Ok [d1; d2], (saveDiagrams env projectId [d1; d2] w1).2).
Proof.
  intros Harch. rewrite (generateC4Diagrams_after env projectId _ _ _ _ Harch).
  destruct (fallback_level1 (clock env) requirements) as (d1 & H1 & _).
  destruct (fallback_level2 (clock env) requirements) as (d2 & H2 & _).
  exists d1, d2. by rewrite H1, H2, fallback_level3.
Qed.










(** ** Runs on complete answers return *)

Lemma mapR_total {A B} (f : A → Result B) (xs : list A) :
  (∀ x, x ∈ xs → ∃ y, f x = Ok y) → ∃ ys, mapR f xs = Ok ys.
Proof.
  induction xs as [|x xs IH]; intros Hall; [by exists [] |].
  destruct (Hall x ltac:(left)) as [y Hy].
  destruct IH as [ys Hys]; [intros x' Hx'; apply Hall; by right |].
  exists (y :: ys). simpl. by rewrite Hy, Hys.
Qed.

(** An answer with every object, array and map in place is built into
    diagrams, provided no container id reads an inherited property of the
    component map and no key of the component map reads an inherited
    property of the relationship map. *)
Lemma complete_answer_builds now arch requirements
    ctx sys people external_systems rels1 containers rels2 byContainer relsByContainer :
  level1_context arch = Some ctx → ctx_system ctx = Some sys →
  ctx_people ctx = Some people → ctx_external_systems ctx = Some external_systems →
  ctx_relationships ctx = Some rels1 →
  level2_containers arch = Some containers → level2_relationships arch = Some rels2 →
  level3_components arch = Some byContainer →
  level3_relationships arch = Some relsByContainer →
  (∀ c, c ∈ containers → Js.get byContainer (cont_id c) ≠ Js.Inherited) →
  (∀ k, k ∈ Js.keys byContainer → Js.get relsByContainer k ≠ Js.Inherited) →
  ∃ d1 d2 d3s,
    buildLevel1Diagram now arch requirements = Ok d1 ∧
    buildLevel2Diagrams now arch requirements = Ok [d2] ∧
    buildLevel3Diagrams now arch requirements = Ok d3s.
Proof.
  intros Hctx Hsys Hpeople Hexts Hrels1 Hconts Hrels2 Hcomps Hrels3 Hproto2 Hproto3.
  assert (∃ els, mapR (containerElement arch requirements) containers = Ok els) as [els Hels].
  { apply mapR_total. intros c Hc. unfold containerElement, childrenOf.
    rewrite Hcomps. simpl. specialize (Hproto2 c Hc).
    destruct (Js.get byContainer (cont_id c)); simpl; [eauto | done | eauto]. }
  assert (∃ pushed, mapR (level3DiagramFor now arch requirements byContainer)
                         (Js.keys byContainer) = Ok pushed) as [pushed Hpushed].
  { apply mapR_total. intros k Hk. unfold level3DiagramFor, level3RelationshipsOf.
    rewrite Hconts, Hrels3. simpl. specialize (Hproto3 k Hk).
    destruct (Js.own byContainer k) as [[|comp comps]|]; [eauto | | eauto].
    destruct (find _ containers); [|eauto].
    destruct (Js.get relsByContainer k); simpl; [eauto | done | eauto]. }
  unfold buildLevel1Diagram, buildLevel2Diagrams, buildLevel3Diagrams.
  rewrite Hctx, Hconts, Hrels2, Hcomps. simpl.
  rewrite Hsys, Hpeople, Hexts, Hrels1, Hels, Hpushed. simpl.
  eexists _, _, _. by repeat split.
Qed.

(** * Further properties of the service *)

(** ** Paths of the diagram store *)

Lemma string_length_app (a b : string) :
  String.length (a +:+ b) = String.length a + String.length b.
Proof.
  induction a as [|c a IH]; [done |].
  change (String c a +:+ b) with (String c (a +:+ b)). cbn [String.length].
  by rewrite IH.
Qed.

Lemma string_app_inj_r (a b t : string) : a +:+ t = b +:+ t → a = b.
Proof.
  revert b. induction a as [|c a IH]; intros [|c' b] Heq; [done | | |].
  - apply (f_equal String.length) in Heq. rewrite !string_length_app in Heq.
    cbn [String.length] in Heq. lia.
  - apply (f_equal String.length) in Heq. rewrite !string_length_app in Heq.
    cbn [String.length] in Heq. lia.
  - change (String c (a +:+ t) = String c' (b +:+ t)) in Heq.
    injection Heq as -> Heq. f_equal. by apply IH.
Qed.

Lemma bodyPath_inj (c4Dir a b : string) :
  pathJoin c4Dir (a +:+ ".json") = pathJoin c4Dir (b +:+ ".json") → a = b.
Proof.
  unfold pathJoin. intros Heq.
  apply String.app_inj, String.app_inj in Heq. by apply string_app_inj_r in Heq.
Qed.

Lemma bodyPath_index (c4Dir a : string) :
  pathJoin c4Dir (a +:+ ".json") = pathJoin c4Dir "index.json" → a = "index".
Proof. apply (bodyPath_inj c4Dir a "index"). Qed.

Lemma pathJoin_ne (c4Dir name : string) : pathJoin c4Dir name ≠ c4Dir.
Proof.
  unfold pathJoin. intros Heq. apply (f_equal String.length) in Heq.
  rewrite !string_length_app in Heq. cbn [String.length] in Heq. lia.
Qed.

Lemma mapR_fmap_Ok {A B C} (g : B → Result C) (h : A → B) (k : A → C) (xs : list A) :
  (∀ x, x ∈ xs → g (h x) = Ok (k x)) → mapR g (h <$> xs) = Ok (k <$> xs).
Proof.
  induction xs as [|x xs IH]; intros Hall; [done |].
  rewrite !fmap_cons. cbn [mapR]. rewrite Hall by left.
  rewrite IH by (intros x' Hx'; apply Hall; by right). done.
Qed.

(** ** Saving and loading *)

Section SaveLoad.

Variable env : Env.
Variable projectId : string.

Local Abbreviation c4Dir := (c4DirOf env projectId).

Lemma writes_files (diagrams : list C4Diagram) w p :
  files (foldl (λ w d, writeFileSync (pathJoin c4Dir (d_id d +:+ ".json")) (DiagramDoc d) w)
               w diagrams) !! p
  = match last (filter (λ d, pathJoin c4Dir (d_id d +:+ ".json") = p) diagrams) with
    | Some d => Some (DiagramDoc d)
    | None => files w !! p
    end.
Proof.
  revert w. induction diagrams as [|d diagrams IH]; intros w; [done |].
  cbn [foldl]. rewrite IH. clear IH.
  destruct (decide (pathJoin c4Dir (d_id d +:+ ".json") = p)) as [Heq | Hne].
  - rewrite filter_cons_True by done. rewrite last_cons.
    destruct (last _); [done |]. simpl. rewrite Heq. apply lookup_insert_eq.
  - rewrite filter_cons_False by done.
    destruct (last _); [done |]. simpl. by apply lookup_insert_ne.
Qed.

Lemma writes_dirs (diagrams : list C4Diagram) w :
  dirs (foldl (λ w d, writeFileSync (pathJoin c4Dir (d_id d +:+ ".json")) (DiagramDoc d) w)
              w diagrams) = dirs w.
Proof. revert w. induction diagrams as [|d diagrams IH]; intros w; [done |]. cbn [foldl]. by rewrite IH. Qed.

Lemma saveDiagrams_index diagrams w :
  files (saveDiagrams env projectId diagrams w).2 !! pathJoin c4Dir "index.json"
  = Some (IndexDoc (indexEntry <$> diagrams) (clock env)).
Proof. unfold saveDiagrams. cbn [snd files writeFileSync]. apply lookup_insert_eq. Qed.

Lemma saveDiagrams_other diagrams w p :
  p ≠ pathJoin c4Dir "index.json" →
  files (saveDiagrams env projectId diagrams w).2 !! p
  = match last (filter (λ d, pathJoin c4Dir (d_id d +:+ ".json") = p) diagrams) with
    | Some d => Some (DiagramDoc d)
    | None => files w !! p
    end.
Proof.
  intros Hne. unfold saveDiagrams. cbn [snd files writeFileSync].
  rewrite lookup_insert_ne by done. rewrite writes_files.
  by destruct (existsSync w c4Dir).
Qed.

Lemma saveDiagrams_dirs diagrams w :
  dirs (saveDiagrams env projectId diagrams w).2
  = if existsSync w c4Dir then dirs w else {[c4Dir]} ∪ dirs w.
Proof.
  unfold saveDiagrams. cbv zeta. cbn [snd writeFileSync dirs]. rewrite writes_dirs.
  by destruct (existsSync w c4Dir).
Qed.

Lemma saveDiagrams_dir_exists diagrams w :
  existsSync (saveDiagrams env projectId diagrams w).2 c4Dir = true.
Proof.
  unfold existsSync at 1. rewrite saveDiagrams_dirs.
  destruct (existsSync w c4Dir) eqn:Hexists.
  - unfold existsSync in Hexists. apply orb_true_iff in Hexists as [Hd | Hf].
    + by rewrite Hd.
    + apply orb_true_iff. right. apply bool_decide_eq_true_2.
      apply bool_decide_eq_true_1 in Hf.
      rewrite saveDiagrams_other by (intros Heq; by apply (pathJoin_ne c4Dir "index.json")).
      by destruct (last _).
  - rewrite bool_decide_eq_true_2; [done | set_solver].
Qed.

Lemma latest_NoDup diagrams d :
  NoDup (d_id <$> diagrams) → d ∈ diagrams → latest diagrams d = d.
Proof.
  unfold latest. induction diagrams as [|d' diagrams IH]; intros Hnd Hd; [done |].
  rewrite fmap_cons in Hnd. apply NoDup_cons in Hnd as [Hnotin Hnd].
  apply elem_of_cons in Hd as [<- | Hd].
  - rewrite filter_cons_True by done. rewrite last_cons.
    destruct (last _) as [d''|] eqn:Hlast; [|done]. exfalso. apply Hnotin.
    apply last_Some in Hlast as [l Hl].
    assert (d'' ∈ filter (λ d', d_id d' = d_id d) diagrams) as [<- Hin]%list_elem_of_filter
      by (rewrite Hl; set_solver).
    by apply list_elem_of_fmap_2.
  - rewrite filter_cons_False; [by apply IH |].
    intros Heq. apply Hnotin. rewrite Heq. by apply list_elem_of_fmap_2.
Qed.

Lemma load_after_save diagrams w :
  (∀ d, d ∈ diagrams → d_id d ≠ "index") →
  getDiagrams env projectId (saveDiagrams env projectId diagrams w).2
  = (Ok ((λ d, DiagramDoc (latest diagrams d)) <$> diagrams),
     (saveDiagrams env projectId diagrams w).2).
Proof.
  intros Hids. unfold getDiagrams.
  rewrite saveDiagrams_dir_exists. cbn [negb].
  assert (existsSync (saveDiagrams env projectId diagrams w).2 (pathJoin c4Dir "index.json")
          = true) as ->.
  { unfold existsSync. rewrite saveDiagrams_index.
    rewrite (bool_decide_eq_true_2 (is_Some _)) by eauto. apply orb_true_r. }
  cbn [negb]. unfold readFileSync at 1. rewrite saveDiagrams_index. f_equal.
  change (mapR (loadDiagramRef (saveDiagrams env projectId diagrams w).2 c4Dir)
               (indexEntry <$> diagrams)
          ≫= (λ loaded, Ok (omap id (loaded : list (option JsonDoc))))
          = Ok ((λ d, DiagramDoc (latest diagrams d)) <$> diagrams)).
  assert (∀ d, d ∈ diagrams →
            loadDiagramRef (saveDiagrams env projectId diagrams w).2 c4Dir (indexEntry d)
            = Ok (Some (DiagramDoc (latest diagrams d)))) as Hload.
  { intros d Hd. unfold loadDiagramRef, existsSync, readFileSync. cbn [indexEntry ix_id].
    rewrite saveDiagrams_other by (intros Heq%bodyPath_index; by apply (Hids d)).
    assert (filter (λ d', pathJoin c4Dir (d_id d' +:+ ".json")
                          = pathJoin c4Dir (d_id d +:+ ".json")) diagrams
            = filter (λ d', d_id d' = d_id d) diagrams) as ->.
    { apply list_filter_iff. intros d'. split; [apply bodyPath_inj | by intros ->]. }
    unfold latest.
    destruct (last _) as [d''|] eqn:Hlast.
    - rewrite (bool_decide_eq_true_2 (is_Some _)) by eauto. by rewrite orb_true_r.
    - exfalso. apply last_None in Hlast.
      assert (d ∈ filter (λ d', d_id d' = d_id d) diagrams) as Hin
        by (by apply list_elem_of_filter).
      rewrite Hlast in Hin. by apply elem_of_nil in Hin. }
  rewrite (mapR_fmap_Ok _ _ _ _ Hload). simpl. f_equal.
  rewrite omap_id_fmap. generalize (latest diagrams). clear. intros f.
  induction diagrams as [|d diagrams IH]; [done |]. simpl. by f_equal.
Qed.

End SaveLoad.



(** ** The world around a run *)

Section RunWorld.

Variable env : Env.

Lemma extractArchitecture_world requirements w r w' :
  extractArchitecture env requirements w = (r, w') →
  files w' = files w ∧ dirs w' = dirs w ∧
  match r with
  | Ok _ => ∃ promptTemplate,
      getPromptContent env "architecture-c4-extraction" = Some promptTemplate ∧
      promptTemplate ≠ "" ∧ requests w' = requests w ++ [promptFor promptTemplate requirements]
  | Throw e => e = PromptNotFound ∧ w' = w
  end.
Proof.
  destruct (getPromptContent env "architecture-c4-extraction") as [tpl|] eqn:Htpl.
  - destruct (decide (tpl = "")) as [-> | Hne].
    + unfold extractArchitecture. rewrite Htpl. unfold lift. by intros [= <- <-].
    + rewrite (extractArchitecture_with_template env requirements w tpl Htpl Hne).
      intros [= <- <-]. do 2 (split; [done |]). by exists tpl.
  - unfold extractArchitecture. rewrite Htpl. unfold lift. by intros [= <- <-].
Qed.

Lemma generateC4Diagrams_cases projectId requirements w :
  (∃ arch w1 ds,
     extractArchitecture env requirements w = (Ok arch, w1) ∧
     generateC4Diagrams env projectId requirements w
       = (Ok ds, (saveDiagrams env projectId ds w1).2)) ∨
  (∃ arch w1,
     extractArchitecture env requirements w = (Ok arch, w1) ∧
     generateC4Diagrams env projectId requirements w = (Throw TypeError, w1)) ∨
  (extractArchitecture env requirements w = (Throw PromptNotFound, w) ∧
   generateC4Diagrams env projectId requirements w = (Throw PromptNotFound, w)).
Proof.
  destruct (extractArchitecture env requirements w) as [[arch|e] w1] eqn:Harch.
  - rewrite (generateC4Diagrams_after env projectId _ _ _ _ Harch).
    destruct (buildLevel1Diagram _ arch requirements) as [d1|e] eqn:H1;
      [|apply buildLevel1Diagram_Throw in H1 as ->; right; left; eauto].
    destruct (buildLevel2Diagrams _ arch requirements) as [d2s|e] eqn:H2;
      [|apply buildLevel2Diagrams_Throw in H2 as ->; right; left; eauto].
    destruct (buildLevel3Diagrams _ arch requirements) as [d3s|e] eqn:H3;
      [|apply buildLevel3Diagrams_Throw in H3 as ->; right; left; eauto].
    left. eauto.
  - destruct (extractArchitecture_world _ _ _ _ Harch) as (_ & _ & -> & ->).
    right. right. split; [done |].
    unfold generateC4Diagrams, mbind, M_bind. by rewrite Harch.
Qed.

End RunWorld.





(** ** The ids of the diagrams of a run *)

Section Ids.

Variable now : string.
Variable arch : ExtractedArchitecture.
Variable requirements : list Requirement.

Lemma buildLevel1Diagram_id d :
  buildLevel1Diagram now arch requirements = Ok d → d_id d = "level1-context".
Proof. unfold buildLevel1Diagram. intros H. inv_Ok H. by subst d. Qed.

Lemma buildLevel2Diagrams_id d :
  buildLevel2Diagrams now arch requirements = Ok [d] → d_id d = "level2-containers".
Proof. unfold buildLevel2Diagrams. intros H. inv_Ok H. by subst d. Qed.

Lemma level3DiagramFor_id byContainer k d :
  level3DiagramFor now arch requirements byContainer k = Ok (Some d) →
  d_id d = "level3-" +:+ k.
Proof.
  unfold level3DiagramFor. intros H.
  destruct (Js.own byContainer k) as [[|comp comps]|]; [done | | done].
  inv_Ok H. destruct (find _ _); [|done]. inv_Ok H. by subst d.
Qed.

Lemma level3_ids byContainer ks pushed :
  Forall2 (λ k o, level3DiagramFor now arch requirements byContainer k = Ok o) ks pushed →
  ∃ ks', ks' `sublist_of` ks ∧
         d_id <$> omap id pushed = String.append "level3-" <$> ks'.
Proof.
  induction 1 as [|k o ks pushed Hk _ (ks' & Hsub & Hids)]; [by exists [] |].
  destruct o as [d|]; simpl.
  - exists (k :: ks'). split; [by constructor |].
    rewrite !fmap_cons. f_equal; [by eapply level3DiagramFor_id | done].
  - exists ks'. split; [by constructor | done].
Qed.

End Ids.

Lemma level_ids_NoDup (ks : list string) :
  NoDup ks →
  NoDup ("level1-context" :: "level2-containers" :: (String.append "level3-" <$> ks)) ∧
  "index" ∉ "level1-context" :: "level2-containers" :: (String.append "level3-" <$> ks).
Proof.
  intros Hnd.
  assert (∀ s, Js.startsWith s "level3-" = false → s ∉ String.append "level3-" <$> ks) as Hout.
  { intros s Hs (k & -> & _)%list_elem_of_fmap.
    assert (Js.startsWith ("level3-" +:+ k) "level3-" = true) as Htrue
      by (apply JsFacts.startsWith_true; by exists k).
    congruence. }
  split.
  - apply NoDup_cons. split.
    + rewrite not_elem_of_cons. split; [done | by apply Hout].
    + apply NoDup_cons. split; [by apply Hout |].
      apply NoDup_fmap_2; [apply String.app_inj | done].
  - rewrite !not_elem_of_cons. split; [done |]. split; [done | by apply Hout].
Qed.

Lemma run_ids env projectId requirements w ds w' arch w1 byContainer :
  generateC4Diagrams env projectId requirements w = (Ok ds, w') →
  extractArchitecture env requirements w = (Ok arch, w1) →
  level3_components arch = Some byContainer →
  ∃ ks, ks `sublist_of` Js.keys byContainer ∧
        d_id <$> ds
          = "level1-context" :: "level2-containers" :: (String.append "level3-" <$> ks).
Proof.
  intros Hrun Harch Hcomps.
  destruct (run_diagrams _ _ _ _ _ _ _ _ Hrun Harch) as (d1 & d2 & d3s & -> & H1 & H2 & H3).
  apply buildLevel3Diagrams_Ok in H3 as (byContainer' & pushed & Hcomps' & Hall & ->).
  assert (byContainer' = byContainer) as -> by congruence.
  destruct (level3_ids _ _ _ _ _ _ Hall) as (ks & Hsub & Hids).
  exists ks. split; [done |]. rewrite !fmap_cons, Hids.
  by rewrite (buildLevel1Diagram_id _ _ _ _ H1), (buildLevel2Diagrams_id _ _ _ _ H2).
Qed.

(** X4: the diagrams of a run that returns are named [level1-context],
    [level2-containers] and [level3-<key>] for some of the keys of the
    component map, in key order; none is named [index], and the names are
    distinct when the keys are, so that no body file is written twice. *)
Theorem run_diagram_ids env projectId requirements w ds w' arch w1 byContainer :
  generateC4Diagrams env projectId requirements w = (Ok ds, w') →
  extractArchitecture env requirements w = (Ok arch, w1) →
  level3_components arch = Some byContainer →
  ∃ ks, ks `sublist_of` Js.keys byContainer ∧
        d_id <$> ds
          = "level1-context" :: "level2-containers" :: (String.append "level3-" <$> ks) ∧
        ("index" ∉ d_id <$> ds) ∧
        (NoDup (Js.keys byContainer) → NoDup (d_id <$> ds)).
Proof.
  intros Hrun Harch Hcomps.
  destruct (run_ids _ _ _ _ _ _ _ _ _ Hrun Harch Hcomps) as (ks & Hsub & Hids).
  exists ks. do 2 (split; [done |]). rewrite Hids. split.
  - assert (∀ s, Js.startsWith s "level3-" = false → s ∉ String.append "level3-" <$> ks)
      as Hout.
    { intros s Hs (k & -> & _)%list_elem_of_fmap.
      assert (Js.startsWith ("level3-" +:+ k) "level3-" = true) as Htrue
        by (apply JsFacts.startsWith_true; by exists k).
      congruence. }
    rewrite !not_elem_of_cons. split; [done |]. split; [done | by apply Hout].
  - intros Hnd. apply level_ids_NoDup. by eapply sublist_NoDup.
Qed.

(** The names at the shop: the components filed under [ghost] give no
    diagram, so there are three names. *)
Lemma run_diagram_ids_witness :
  ∃ ds,
    (generateC4Diagrams (Samples.answering Samples.shop) "demo" [Samples.userLogin]
                        Samples.emptyWorld).1 = Ok ds ∧
    d_id <$> ds = ["level1-context"; "level2-containers"; "level3-auth"] ∧
    NoDup (d_id <$> ds).
Proof.
  evaluate (generateC4Diagrams (Samples.answering Samples.shop) "demo" [Samples.userLogin]
                               Samples.emptyWorld).1 Hres.
  match type of Hres with _ = Ok ?ds => exists ds end.
  split; [exact Hres |]. split; [reflexivity |].
  assert ((extractArchitecture (Samples.answering Samples.shop) [Samples.userLogin]
                               Samples.emptyWorld).1 = Ok Samples.shop) as Harch
    by reflexivity.
  destruct (run_diagram_ids _ _ _ _ _ _ _ _ _
              (pair_of_fst _ _ Hres) (pair_of_fst _ _ Harch) eq_refl)
    as (ks & _ & _ & _ & Hnd).
  apply Hnd. apply NoDup_cons. split; [|apply NoDup_singleton].
  by intros ?%list_elem_of_singleton.
Defined.



(** ** Edge cases of the traceability heuristic *)

Lemma includes_empty (s : string) : Js.includes s "" = true.
Proof. by destruct s. Qed.

Lemma lower_ascii_idemp (c : ascii) : Js.lower_ascii (Js.lower_ascii c) = Js.lower_ascii c.
Proof. by destruct c as [[] [] [] [] [] [] [] []]. Qed.

Lemma toLowerCase_idemp (s : string) : Js.toLowerCase (Js.toLowerCase s) = Js.toLowerCase s.
Proof. induction s as [|c s IH]; [done |]. simpl. by rewrite lower_ascii_idemp, IH. Qed.

(** X6: an empty keyword matches everything: an element one of whose
    keywords is the empty string is given the id of every requirement, in
    input order. *)
Theorem empty_keyword_matches_all (requirements : list Requirement) (keywords : list string) :
  "" ∈ keywords → tracedRequirements requirements keywords = req_id <$> requirements.
Proof.
  intros Hin. unfold tracedRequirements. f_equal.
  induction requirements as [|r requirements IH]; [done |].
  rewrite filter_cons_True; [by rewrite IH |].
  apply Is_true_true, existsb_exists. exists "". split; [by apply list_elem_of_In |].
  unfold matchesKeyword. simpl. by rewrite includes_empty.
Qed.

Lemma empty_keyword_matches_all_witness :
  tracedRequirements [Samples.userLogin; Samples.displayUi] ["payments"; ""]
  = ["US-00001"; "US-00002"].
Proof.
  apply (empty_keyword_matches_all [Samples.userLogin; Samples.displayUi] ["payments"; ""]).
  right. left.
Defined.


(** ** Navigation between the context and the container diagram *)

(** X8: in every run that returns, the first element of the Level-1
    diagram is the system [main-system]; its children are the ids of the
    container elements of the Level-2 diagram, in order, those are the ids
    of the extracted containers, and the parent of the Level-2 diagram is
    that system. *)
Theorem system_children_are_containers env projectId requirements w ds w' arch w1 :
  generateC4Diagrams env projectId requirements w = (Ok ds, w') →
  extractArchitecture env requirements w = (Ok arch, w1) →
  ∃ d1 d2 d3s e els containers,
    ds = d1 :: d2 :: d3s ∧ d_elements d1 = e :: els ∧
    level2_containers arch = Some containers ∧
    el_id e = "main-system" ∧ el_type e = ty_system ∧
    d_parentId d1 = None ∧ d_parentId d2 = Some (el_id e) ∧
    el_children e = Some (cont_id <$> containers) ∧
    el_id <$> filter (λ x, el_type x = ty_container) (d_elements d2) = cont_id <$> containers ∧
    (∀ x, x ∈ els → el_children x = None).
Proof.
  intros Hrun Harch.
  destruct (run_diagrams _ _ _ _ _ _ _ _ Hrun Harch) as (d1 & d2 & d3s & -> & H1 & H2 & _).
  apply buildLevel1Diagram_Ok in H1
    as (ctx & sys & containers & people & exts & rels1 & _ & _ & Hconts & _ & _ & _
        & _ & Hp1 & Hel1 & _).
  apply buildLevel2Diagrams_Ok in H2
    as (containers' & els2 & ctx' & exts' & rels2 & d2' & Hconts' & Hall & _ & _ & _
        & [= <-] & _ & Hp2 & Hel2 & _).
  assert (containers' = containers) as -> by congruence.
  exists d1, d2, d3s, (systemElement sys containers requirements),
         ((personElement <$> people) ++ (externalElement <$> exts)), containers.
  do 7 (split; [done |]). split; [done |]. split.
  - rewrite Hel2, filter_app.
    assert (filter (λ x, el_type x = ty_container) els2 = els2) as ->.
    { clear -Hall. induction Hall as [|c e cs es Hc _ IH]; [done |].
      apply containerElement_requirements in Hc as (_ & Htype & _).
      rewrite filter_cons_True by done. by rewrite IH. }
    assert (filter (λ x, el_type x = ty_container)
                   (externalElement <$> filter (λ sys, referencedAtLevel2 rels2 sys) exts')
            = []) as ->.
    { clear. induction (filter _ exts') as [|x xs IH]; [done |].
      rewrite fmap_cons, filter_cons_False by done. exact IH. }
    rewrite app_nil_r. by apply containerElements_ids in Hall.
  - intros x [Hx | Hx]%elem_of_app; apply list_elem_of_fmap in Hx as (? & -> & _); done.
Qed.

Lemma system_children_are_containers_witness :
  ∃ d1 d2 d3 e els,
    (generateC4Diagrams (Samples.answering Samples.shop) "demo" [Samples.userLogin]
                        Samples.emptyWorld).1 = Ok [d1; d2; d3] ∧
    d_elements d1 = e :: els ∧ el_children e = Some ["auth"; "orders"] ∧
    el_id <$> filter (λ x, el_type x = ty_container) (d_elements d2) = ["auth"; "orders"].
Proof.
  evaluate (generateC4Diagrams (Samples.answering Samples.shop) "demo" [Samples.userLogin]
                               Samples.emptyWorld).1 Hres.
  match type of Hres with
  | _ = Ok [?a; ?b; ?c] =>
      match eval cbn [d_elements] in (d_elements a) with
      | ?e :: ?els => exists a, b, c, e, els
      end
  end.
  split; [exact Hres |]. do 2 (split; [reflexivity |]).
  assert ((extractArchitecture (Samples.answering Samples.shop) [Samples.userLogin]
                               Samples.emptyWorld).1 = Ok Samples.shop) as Harch
    by reflexivity.
  destruct (system_children_are_containers _ _ _ _ _ _ _ _
              (pair_of_fst _ _ Hres) (pair_of_fst _ _ Harch))
    as (d1 & d2 & d3s & e & els & containers & Hds & _ & [= <-] & _ & _ & _ & _ & _
        & Hids & _).
  injection Hds as <- <- _. exact Hids.
Defined.

(** ** Runs on complete answers *)

Lemma omap_id_length {A} (xs : list (option A)) : length (omap id xs) ≤ length xs.
Proof.
  induction xs as [|[x|] xs IH]; [done | |].
  - change (omap id (Some x :: xs)) with (x :: omap id xs). simpl. lia.
  - change (omap id (None :: xs)) with (omap id xs). simpl. lia.
Qed.



(** X10: a container whose id is the name of a property that every
    object inherits ([constructor], [toString], ...) and under which the
    component map files nothing makes the run fail with a [TypeError]: the
    read of the component map yields the inherited value, which has no
    [map] method. *)
Theorem inherited_container_id_throws env projectId requirements w arch w1 containers c
    byContainer :
  extractArchitecture env requirements w = (Ok arch, w1) →
  level2_containers arch = Some containers → c ∈ containers →
  level3_components arch = Some byContainer →
  Js.own byContainer (cont_id c) = None → cont_id c ∈ Js.prototype_keys →
  generateC4Diagrams env projectId requirements w = (Throw TypeError, w1).
Proof.
  intros Harch Hconts Hc Hcomps Hown Hproto.
  destruct (generateC4Diagrams_cases env projectId requirements w)
    as [(arch' & w1' & ds & Harch' & Hgen) | [(arch' & w1' & Harch' & Hgen) | [Harch' _]]];
    rewrite Harch in Harch'; [| by injection Harch' as <- <- | done].
  injection Harch' as <- <-. exfalso.
  destruct (run_diagrams _ _ _ _ _ _ _ _ Hgen Harch) as (d1 & d2 & d3s & _ & _ & H2 & _).
  apply buildLevel2Diagrams_Ok in H2
    as (containers' & els & ? & ? & ? & ? & Hconts' & Hall & _).
  assert (containers' = containers) as -> by congruence.
  apply list_elem_of_lookup in Hc as [i Hi].
  destruct (Forall2_lookup_l _ _ _ _ _ Hall Hi) as (e & _ & He).
  apply containerElement_requirements in He as (_ & _ & _ & children & Hch & _).
  unfold childrenOf in Hch. rewrite Hcomps in Hch. simpl in Hch.
  unfold Js.get in Hch. rewrite Hown in Hch.
  assert (existsb (String.eqb (cont_id c)) Js.prototype_keys = true) as Hex.
  { apply existsb_exists. exists (cont_id c).
    split; [by apply list_elem_of_In | apply String.eqb_refl]. }
  by rewrite Hex in Hch.
Qed.

Lemma inherited_container_id_throws_witness :
  (generateC4Diagrams (Samples.answering Cases.inheritedId) "demo" [Samples.userLogin]
                      Samples.emptyWorld).1 = Throw TypeError.
Proof.
  assert ((extractArchitecture (Samples.answering Cases.inheritedId) [Samples.userLogin]
                               Samples.emptyWorld).1 = Ok Cases.inheritedId) as Harch
    by reflexivity.
  refine (f_equal fst (inherited_container_id_throws _ "demo" _ _ _ _ _ _ _
                         (pair_of_fst _ _ Harch) eq_refl _ eq_refl eq_refl _)).
  - left.
  - left.
Defined.

(** ** What the renderers read *)

Section Rendering.

Lemma concatMap_fmap {A B} (f : B → string) (g : A → B) (xs : list A) :
  concatMap f (g <$> xs) = concatMap (f ∘ g) xs.
Proof. induction xs as [|x xs IH]; [done |]. rewrite fmap_cons. simpl. by rewrite IH. Qed.

Lemma filter_bare (P : C4Element → Prop) `{!∀ e, Decision (P e)} (els : list C4Element) :
  (∀ e, P (bare e) ↔ P e) → filter P (bare <$> els) = bare <$> filter P els.
Proof.
  intros HP. induction els as [|e els IH]; [done |].
  change (bare <$> e :: els) with (bare e :: (bare <$> els)).
  destruct (decide (P e)) as [He | He].
  - rewrite (filter_cons_True P (bare e)) by (by apply HP).
    rewrite (filter_cons_True P e) by done. by rewrite IH.
  - rewrite (filter_cons_False P (bare e)) by (by rewrite HP).
    by rewrite (filter_cons_False P e).
Qed.

Lemma find_bare (els : list C4Element) :
  find isMainSystem (bare <$> els) = bare <$> find isMainSystem els.
Proof.
  induction els as [|e els IH]; [done |]. rewrite fmap_cons. cbn [find].
  change (isMainSystem (bare e)) with (isMainSystem e).
  by destruct (isMainSystem e).
Qed.

Lemma generateMermaidLevel1_bare els rels :
  generateMermaidLevel1 (bare <$> els) rels = generateMermaidLevel1 els rels.
Proof.
  unfold generateMermaidLevel1. rewrite find_bare, !filter_bare by done.
  rewrite !concatMap_fmap. by destruct (find isMainSystem els).
Qed.

Lemma generateMermaidLevel2_bare els rels :
  generateMermaidLevel2 (bare <$> els) rels = generateMermaidLevel2 els rels.
Proof.
  unfold generateMermaidLevel2. rewrite !filter_bare by done. by rewrite !concatMap_fmap.
Qed.

Lemma generateMermaidLevel3_bare containerName els rels :
  generateMermaidLevel3 containerName (bare <$> els) rels
  = generateMermaidLevel3 containerName els rels.
Proof. unfold generateMermaidLevel3. by rewrite !concatMap_fmap. Qed.

End Rendering.

(** X11: the three renderers read only the id, type, name, description
    and technology of an element: the text is the same when every element
    is stripped of its requirement ids and children. *)
Theorem rendering_ignores_traceability (containerName : string)
    (elements : list C4Element) (relationships : list C4Relationship) :
  generateMermaidLevel1 (bare <$> elements) relationships
    = generateMermaidLevel1 elements relationships ∧
  generateMermaidLevel2 (bare <$> elements) relationships
    = generateMermaidLevel2 elements relationships ∧
  generateMermaidLevel3 containerName (bare <$> elements) relationships
    = generateMermaidLevel3 containerName elements relationships.
Proof.
  split; [apply generateMermaidLevel1_bare |].
  split; [apply generateMermaidLevel2_bare | apply generateMermaidLevel3_bare].
Qed.

(** X12: the Level-1 renderer draws the first element that is a system
    with id [main-system] as the system, and no other element with that id
    and type at all: an external system that carries the id [main-system]
    is left out of the text. *)
Theorem second_main_system_not_drawn (e x : C4Element) (els els' : list C4Element)
    (relationships : list C4Relationship) :
  isMainSystem e = true → isMainSystem x = true →
  generateMermaidLevel1 (e :: els ++ x :: els') relationships
  = generateMermaidLevel1 (e :: els ++ els') relationships.
Proof.
  intros He Hx. unfold generateMermaidLevel1. cbn [find]. rewrite He.
  assert (el_type x = ty_system ∧ String.eqb (el_id x) "main-system" = true) as [Htype Hid].
  { unfold isMainSystem, isType in Hx. apply andb_true_iff in Hx as [Ht Hi].
    by apply bool_decide_eq_true_1 in Ht. }
  assert (∀ (P : C4Element → Prop) `{!∀ y, Decision (P y)},
            ¬ P x → filter P (e :: els ++ x :: els') = filter P (e :: els ++ els')) as Hdrop.
  { intros P ? HP. rewrite !filter_cons, !filter_app, (filter_cons_False P x) by done. done. }
  rewrite !Hdrop; [done | |].
  - rewrite Hid. simpl. rewrite andb_false_r. by intros [].
  - unfold isType. rewrite Htype. by intros ?%bool_decide_unpack.
Qed.

Lemma second_main_system_not_drawn_witness :
  generateMermaidLevel1 [Cases.shopSystem; Cases.customer; Cases.paymentsAsMain] []
  = generateMermaidLevel1 [Cases.shopSystem; Cases.customer] [].
Proof.
  exact (second_main_system_not_drawn Cases.shopSystem Cases.paymentsAsMain
           [Cases.customer] [] [] eq_refl eq_refl).
Defined.

(** ** What the requirements can change *)

Section Drawings.

Variable now : string.
Variable arch : ExtractedArchitecture.
Variables requirements requirements' : list Requirement.

Lemma mapR_mapResult {A B C} (g : B → C) (f f' : A → Result B) (xs : list A) :
  (∀ x, mapResult g (f x) = mapResult g (f' x)) →
  mapResult (fmap g) (mapR f xs) = mapResult (fmap g) (mapR f' xs).
Proof.
  intros Hsame. induction xs as [|x xs IH]; [done |]. cbn [mapR].
  specialize (Hsame x).
  destruct (f x) as [y|e], (f' x) as [y'|e']; simpl in Hsame |- *;
    try done; [|by injection Hsame as ->].
  injection Hsame as Hy.
  destruct (mapR f xs) as [ys|e], (mapR f' xs) as [ys'|e']; simpl in IH |- *; try done.
  injection IH as IH. unfold fmap in IH |- *. simpl. by rewrite Hy, IH.
Qed.

Lemma fmap_omap_id {A B} (g : A → B) (xs : list (option A)) :
  g <$> omap id xs = omap id (fmap g <$> xs).
Proof.
  induction xs as [|[x|] xs IH]; [done | |].
  - change (g <$> x :: omap id xs = g x :: omap id (fmap g <$> xs)).
    by rewrite fmap_cons, IH.
  - exact IH.
Qed.

Lemma containerElement_bare c :
  mapResult bare (containerElement arch requirements c)
  = mapResult bare (containerElement arch requirements' c).
Proof. unfold containerElement. by destruct (childrenOf arch (cont_id c)). Qed.

Lemma level1_drawing :
  mapResult drawing (buildLevel1Diagram now arch requirements)
  = mapResult drawing (buildLevel1Diagram now arch requirements').
Proof.
  unfold buildLevel1Diagram.
  destruct (level1_context arch) as [ctx|]; [|done]. simpl.
  destruct (ctx_system ctx) as [sys|]; [|done]. simpl.
  destruct (level2_containers arch) as [containers|]; [|done]. simpl.
  destruct (ctx_people ctx) as [people|]; [|done]. simpl.
  destruct (ctx_external_systems ctx) as [exts|]; [|done]. simpl.
  destruct (ctx_relationships ctx) as [rels|]; [|done]. simpl.
  unfold drawing. cbn [d_elements d_mermaidCode d_id d_level d_type d_title d_description
                       d_relationships d_generatedAt d_parentId].
  by do 2 f_equal.
Qed.

Lemma level2_drawing :
  mapResult (fmap drawing) (buildLevel2Diagrams now arch requirements)
  = mapResult (fmap drawing) (buildLevel2Diagrams now arch requirements').
Proof.
  unfold buildLevel2Diagrams.
  destruct (level2_containers arch) as [containers|]; [|done]. simpl.
  pose proof (mapR_mapResult bare _ _ containers containerElement_bare) as Hels.
  destruct (mapR (containerElement arch requirements) containers) as [els|e],
           (mapR (containerElement arch requirements') containers) as [els'|e'];
    simpl in Hels |- *; try done; [|by injection Hels as ->].
  injection Hels as Hels.
  destruct (level1_context arch) as [ctx|]; [|done]. simpl.
  destruct (ctx_external_systems ctx) as [exts|]; [|done]. simpl.
  destruct (level2_relationships arch) as [rels|]; [|done]. simpl.
  unfold drawing. cbn [d_elements d_mermaidCode d_id d_level d_type d_title d_description
                       d_relationships d_generatedAt d_parentId].
  do 3 f_equal.
  - rewrite <- (generateMermaidLevel2_bare (els ++ _)).
    rewrite <- (generateMermaidLevel2_bare (els' ++ _)).
    by rewrite !fmap_app, Hels.
  - by rewrite !fmap_app, Hels.
Qed.

Lemma level3DiagramFor_drawing byContainer k :
  mapResult (fmap drawing) (level3DiagramFor now arch requirements byContainer k)
  = mapResult (fmap drawing) (level3DiagramFor now arch requirements' byContainer k).
Proof.
  unfold level3DiagramFor.
  destruct (Js.own byContainer k) as [[|comp comps]|]; [done | | done].
  destruct (level2_containers arch) as [containers|]; [|done]. simpl.
  destruct (find _ containers) as [c|]; [|done].
  destruct (level3RelationshipsOf arch k) as [rels|e]; [|done]. simpl.
  unfold drawing. cbn [d_elements d_mermaidCode d_id d_level d_type d_title d_description
                       d_relationships d_generatedAt d_parentId].
  assert (bare <$> (componentElement requirements <$> comp :: comps)
          = bare <$> (componentElement requirements' <$> comp :: comps)) as Hbare
    by (by rewrite <- !list_fmap_compose).
  do 3 f_equal; [|done].
  change (generateMermaidLevel3 (cont_name c)
            (componentElement requirements <$> comp :: comps) (level3Relationship <$> rels)
          = generateMermaidLevel3 (cont_name c)
              (componentElement requirements' <$> comp :: comps)
              (level3Relationship <$> rels)).
  rewrite <- (generateMermaidLevel3_bare _ (componentElement requirements <$> _)).
  rewrite <- (generateMermaidLevel3_bare _ (componentElement requirements' <$> _)).
  by rewrite Hbare.
Qed.

Lemma level3_drawing :
  mapResult (fmap drawing) (buildLevel3Diagrams now arch requirements)
  = mapResult (fmap drawing) (buildLevel3Diagrams now arch requirements').
Proof.
  unfold buildLevel3Diagrams.
  destruct (level3_components arch) as [byContainer|]; [|done]. simpl.
  pose proof (mapR_mapResult (fmap drawing) _ _ (Js.keys byContainer)
                (level3DiagramFor_drawing byContainer)) as Hpushed.
  destruct (mapR (level3DiagramFor now arch requirements byContainer) _) as [pushed|e],
           (mapR (level3DiagramFor now arch requirements' byContainer) _) as [pushed'|e'];
    cbn [mapResult] in Hpushed; try done; [|by injection Hpushed as ->].
  injection Hpushed as Hpushed. cbn [mbind result_bind mapResult]. f_equal.
  by rewrite !fmap_omap_id, Hpushed.
Qed.

End Drawings.


(** ** Code fences around the reply *)

Lemma string_app_assoc (a b c : string) : (a +:+ b) +:+ c = a +:+ b +:+ c.
Proof.
  induction a as [|x a IH]; [done |].
  change (String x ((a +:+ b) +:+ c) = String x (a +:+ b +:+ c)). by rewrite IH.
Qed.

Section Fence.

(** The fence patterns start with a backtick. *)
Variable p : string.
Local Abbreviation pat := (String "`"%char p).

Lemma removeAll_cons_None c s :
  Js.removeAll pat None (String c s)
  = if Js.startsWith (String c s) pat
    then Js.removeAll pat (Some (String.length pat - 1)) s
    else String c (Js.removeAll pat None s).
Proof. reflexivity. Qed.

Lemma removeAll_copy a b :
  lacks "`" a = true → Js.removeAll pat None (a +:+ b) = a +:+ Js.removeAll pat None b.
Proof.
  induction a as [|c a IH]; [done |]. cbn [lacks]. intros [Hc Ha]%andb_true_iff.
  change (String c a +:+ ?x) with (String c (a +:+ x)).
  rewrite removeAll_cons_None. cbn [Js.startsWith].
  rewrite Ascii.eqb_sym. apply negb_true_iff in Hc. rewrite Hc. by rewrite IH.
Qed.

Lemma removeAll_skip q rest :
  Js.removeAll pat (Some (String.length q)) (q +:+ rest) = Js.removeAll pat (Some 0) rest.
Proof. induction q as [|c q IH]; [done |]. exact IH. Qed.

Lemma removeAll_match rest :
  Js.removeAll pat None (pat +:+ rest) = Js.removeAll pat (Some 0) rest.
Proof.
  change (pat +:+ rest) with (String "`"%char (p +:+ rest)).
  rewrite removeAll_cons_None.
  assert (Js.startsWith (String "`"%char (p +:+ rest)) pat = true) as ->
    by (apply JsFacts.startsWith_true; by exists rest).
  replace (String.length pat - 1) with (String.length p) by (cbn [String.length]; lia).
  apply removeAll_skip.
Qed.

Lemma removeAll_after_line_feed rest :
  Js.removeAll pat (Some 0) (Js.nl +:+ rest) = Js.removeAll pat None rest.
Proof. reflexivity. Qed.

End Fence.

Lemma trimEnd_keeps_fence (x : string) : Js.trimEnd (x +:+ "```") = x +:+ "```".
Proof.
  induction x as [|c x IH]; [done |].
  change (String c x +:+ "```") with (String c (x +:+ "```")).
  cbn [Js.trimEnd]. rewrite IH. by destruct x.
Qed.

Lemma trim_keeps_fenced (tag rest : string) :
  Js.trim ((String "`" tag +:+ rest) +:+ "```") = (String "`" tag +:+ rest) +:+ "```".
Proof.
  unfold Js.trim.
  change (Js.trimStart ((String "`" tag +:+ ?s) +:+ ?t)) with ((String "`" tag +:+ s) +:+ t).
  apply trimEnd_keeps_fence.
Qed.

(** X14: a reply that consists of a code fence, with or without the
    [json] tag, around a body without backticks is handed to [JSON.parse]
    as the body followed by one line feed. *)
Theorem fenced_reply_unwrapped (body : string) :
  lacks "`" body = true →
  jsonContentOf (Some ("```json" +:+ Js.nl +:+ body +:+ Js.nl +:+ "```")) = body +:+ Js.nl ∧
  jsonContentOf (Some ("```" +:+ Js.nl +:+ body +:+ Js.nl +:+ "```")) = body +:+ Js.nl.
Proof.
  intros Hbody.
  assert (Js.removeAll "```" None (body +:+ Js.nl +:+ "```") = body +:+ Js.nl) as Hplain
    by (by rewrite removeAll_copy).
  assert (Js.removeAll "```json" None (body +:+ Js.nl +:+ "```") = body +:+ Js.nl +:+ "```")
    as Htagged by (by rewrite removeAll_copy).
  split.
  - unfold jsonContentOf.
    change (default "{}" (Js.or (Some ?s) _)) with s. cbv zeta.
    rewrite <- !(string_app_assoc _ _ "```"), trim_keeps_fenced, !string_app_assoc.
    unfold stripCodeFence.
    assert (Js.startsWith ("```json" +:+ Js.nl +:+ body +:+ Js.nl +:+ "```") "```json" = true)
      as -> by (apply JsFacts.startsWith_true; by eexists).
    rewrite (removeAll_match "``json"), removeAll_after_line_feed, Htagged. exact Hplain.
  - unfold jsonContentOf.
    change (default "{}" (Js.or (Some ?s) _)) with s. cbv zeta.
    rewrite <- !(string_app_assoc _ _ "```"), trim_keeps_fenced, !string_app_assoc.
    unfold stripCodeFence.
    change (Js.startsWith ("```" +:+ Js.nl +:+ ?s) "```json") with false.
    assert (Js.startsWith ("```" +:+ Js.nl +:+ body +:+ Js.nl +:+ "```") "```" = true)
      as -> by (apply JsFacts.startsWith_true; by eexists).
    rewrite (removeAll_match "``"), removeAll_after_line_feed. exact Hplain.
Qed.

Lemma fenced_reply_unwrapped_witness :
  jsonContentOf (Some ("```json" +:+ Js.nl +:+ "{}" +:+ Js.nl +:+ "```")) = "{}" +:+ Js.nl ∧
  jsonContentOf (Some ("```" +:+ Js.nl +:+ "{}" +:+ Js.nl +:+ "```")) = "{}" +:+ Js.nl.
Proof. apply (fenced_reply_unwrapped "{}"). reflexivity. Defined.

(** ** The prompt *)

Lemma string_app_nil_r (a : string) : a +:+ "" = a.
Proof.
  induction a as [|x a IH]; [done |]. change (String x (a +:+ "") = String x a). by rewrite IH.
Qed.

Lemma skip_app (q rest : string) : Js.skip (String.length q) (q +:+ rest) = rest.
Proof. induction q as [|c q IH]; [by destruct rest |]. exact IH. Qed.

Lemma replaceAll_absent (pat repl before s : string) :
  Js.includes s pat = false → Js.replaceAll pat repl before 0 s = s.
Proof.
  revert before. induction s as [|c s IH]; [done |]. intros before.
  cbn [Js.includes]. intros [Hhere Hlater]%orb_false_iff.
  cbn [Js.replaceAll]. rewrite Hhere. by rewrite IH.
Qed.

Lemma getSubstitution_plain (matched before after repl : string) :
  lacks "$" repl = true → Js.getSubstitution matched before after repl = repl.
Proof.
  induction repl as [|c r IH]; [done |]. cbn [lacks]. intros [Hc Hr]%andb_true_iff.
  destruct c as [[] [] [] [] [] [] [] []]; try discriminate Hc;
    cbn [Js.getSubstitution]; by rewrite IH.
Qed.

Lemma getSubstitution_app (matched before after a r : string) :
  lacks "$" a = true →
  Js.getSubstitution matched before after (a +:+ r)
  = a +:+ Js.getSubstitution matched before after r.
Proof.
  induction a as [|c a IH]; [done |]. cbn [lacks]. intros [Hc Ha]%andb_true_iff.
  change (String c a +:+ ?x) with (String c (a +:+ x)).
  destruct c as [[] [] [] [] [] [] [] []]; try discriminate Hc;
    cbn [Js.getSubstitution]; by rewrite IH.
Qed.

Section Placeholder.

(** The placeholder starts with an opening brace. *)
Variable p : string.
Local Abbreviation pat := (String "{"%char p).

Lemma replaceAll_copy (repl before a b : string) :
  lacks "{" a = true →
  Js.replaceAll pat repl before 0 (a +:+ b)
  = a +:+ Js.replaceAll pat repl (before +:+ a) 0 b.
Proof.
  revert before. induction a as [|c a IH]; intros before.
  - by rewrite string_app_nil_r.
  - cbn [lacks]. intros [Hc Ha]%andb_true_iff.
    change (String c a +:+ ?x) with (String c (a +:+ x)).
    cbn [Js.replaceAll Js.startsWith].
    rewrite Ascii.eqb_sym. apply negb_true_iff in Hc. rewrite Hc.
    rewrite IH by done. by rewrite string_app_assoc.
Qed.

Lemma replaceAll_skip (repl before q rest : string) :
  Js.replaceAll pat repl before (String.length q) (q +:+ rest)
  = Js.replaceAll pat repl (before +:+ q) 0 rest.
Proof.
  revert before. induction q as [|c q IH]; intros before.
  - by rewrite string_app_nil_r.
  - change (String c q +:+ rest) with (String c (q +:+ rest)).
    cbn [String.length Js.replaceAll]. by rewrite IH, string_app_assoc.
Qed.

Lemma replaceAll_match (repl before rest : string) :
  Js.replaceAll pat repl before 0 (pat +:+ rest)
  = Js.getSubstitution pat before rest repl
    +:+ Js.replaceAll pat repl (before +:+ pat) 0 rest.
Proof.
  change (pat +:+ rest) with (String "{"%char (p +:+ rest)).
  cbn [Js.replaceAll].
  assert (Js.startsWith (String "{"%char (p +:+ rest)) pat = true) as ->
    by (apply JsFacts.startsWith_true; by exists rest).
  change (String "{"%char (p +:+ rest)) with (pat +:+ rest). rewrite skip_app.
  replace (String.length pat - 1) with (String.length p) by (cbn [String.length]; lia).
  by rewrite replaceAll_skip, string_app_assoc.
Qed.

Lemma replaceAll_single (repl pre post : string) :
  lacks "{" pre = true → lacks "{" post = true →
  Js.replaceAll pat repl "" 0 (pre +:+ pat +:+ post)
  = pre +:+ Js.getSubstitution pat pre post repl +:+ post.
Proof.
  intros Hpre Hpost. rewrite replaceAll_copy by done.
  change ("" +:+ pre) with pre. rewrite replaceAll_match. do 2 f_equal.
  rewrite <- (string_app_nil_r post) at 1. rewrite replaceAll_copy by done.
  apply string_app_nil_r.
Qed.

End Placeholder.

(** The text of the requirements, as [extractArchitecture] joins it. *)
Local Abbreviation textOf requirements :=
  (Js.join (Js.nl +:+ Js.nl) (requirementText <$> requirements)).

(** X15: a template without the placeholder is sent to the model as it
    is, whatever the requirements. *)
Theorem prompt_without_placeholder (promptTemplate : string) (requirements : list Requirement) :
  Js.includes promptTemplate "{{TEXT}}" = false →
  promptFor promptTemplate requirements = promptTemplate.
Proof. intros Habsent. unfold promptFor. by apply replaceAll_absent. Qed.

Lemma prompt_without_placeholder_witness :
  promptFor "Describe the architecture." [Samples.userLogin] = "Describe the architecture.".
Proof. apply prompt_without_placeholder. reflexivity. Defined.

(** X16: when the text of the requirements holds no dollar sign, a
    template with one placeholder between two parts without opening brace
    becomes the first part, the text, and the second part. *)
Theorem prompt_single_placeholder (pre post : string) (requirements : list Requirement) :
  lacks "{" pre = true → lacks "{" post = true →
  lacks "$" (textOf requirements) = true →
  promptFor (pre +:+ "{{TEXT}}" +:+ post) requirements
  = pre +:+ textOf requirements +:+ post.
Proof.
  intros Hpre Hpost Htext. unfold promptFor. cbv zeta.
  rewrite replaceAll_single by done. by rewrite getSubstitution_plain.
Qed.

Lemma prompt_single_placeholder_witness :
  promptFor ("Requirements: " +:+ "{{TEXT}}" +:+ " End.") [Samples.userLogin; Samples.displayUi]
  = "Requirements: " +:+ textOf [Samples.userLogin; Samples.displayUi] +:+ " End.".
Proof. apply prompt_single_placeholder; reflexivity. Defined.

(** X17: the text of the requirements is used as a replacement pattern:
    where it holds a dollar sign followed by an ampersand, the prompt holds
    the placeholder itself. *)
Theorem prompt_expands_dollar_patterns
    (pre post a b : string) (requirements : list Requirement) :
  lacks "{" pre = true → lacks "{" post = true →
  lacks "$" a = true → lacks "$" b = true →
  textOf requirements = a +:+ "$&" +:+ b →
  promptFor (pre +:+ "{{TEXT}}" +:+ post) requirements
  = pre +:+ (a +:+ "{{TEXT}}" +:+ b) +:+ post.
Proof.
  intros Hpre Hpost Ha Hb Htext. unfold promptFor. cbv zeta.
  rewrite replaceAll_single by done. rewrite Htext.
  rewrite getSubstitution_app by done.
  change ("$&" +:+ b) with (String "$" (String "&" b)). cbn [Js.getSubstitution].
  by rewrite getSubstitution_plain.
Qed.

Lemma prompt_expands_dollar_patterns_witness :
  promptFor ("Requirements: " +:+ "{{TEXT}}" +:+ " End.") [Cases.dollarTitle]
  = "Requirements: " +:+ ("[functional] " +:+ "{{TEXT}}" +:+ (Js.nl +:+ "d" +:+ Js.nl))
    +:+ " End.".
Proof.
  apply (prompt_expands_dollar_patterns _ _ "[functional] " (Js.nl +:+ "d" +:+ Js.nl));
    reflexivity.
Defined.

(** ** The template service *)

Section Templates.

Import SpecKit.

Lemma fetchTemplate_hit get templateName s content :
  templateCache s !! templateName = Some content →
  fetchTemplate get templateName s = (Fetched content, s).
Proof. intros Hhit. unfold fetchTemplate. by rewrite Hhit. Qed.

Lemma fetchTemplate_cache_grows get templateName s :
  templateCache s ⊆ templateCache (fetchTemplate get templateName s).2.
Proof.
  unfold fetchTemplate. destruct (templateCache s !! templateName) eqn:Hcache; [done |].
  destruct (get _); [|done]. by apply insert_subseteq.
Qed.

Lemma fetchTemplate_cache_kept get templateName s r s' :
  fetchTemplate get templateName s = (r, s') → templateCache s ⊆ templateCache s'.
Proof.
  intros Hfetch. pose proof (fetchTemplate_cache_grows get templateName s) as Hgrows.
  by rewrite Hfetch in Hgrows.
Qed.

Lemma fetchTemplate_Fetched get templateName s content s' :
  fetchTemplate get templateName s = (Fetched content, s') →
  templateCache s' !! templateName = Some content.
Proof.
  unfold fetchTemplate. destruct (templateCache s !! templateName) eqn:Hcache.
  - by intros [= <- <-].
  - destruct (get _); [|done]. intros [= <- <-]. apply lookup_insert_eq.
Qed.

Lemma fetchTemplate_CouldNotFetch get templateName s name s' :
  fetchTemplate get templateName s = (CouldNotFetch name, s') →
  name = templateName ∧ templateCache s !! templateName = None ∧
  templateCache s' = templateCache s ∧ gets s' = gets s ++ [urlOf templateName].
Proof.
  unfold fetchTemplate. destruct (templateCache s !! templateName) eqn:Hcache; [done |].
  destruct (get _); [done |]. by intros [= <- <-].
Qed.

Lemma fetchTemplate_gets get templateName s :
  gets (fetchTemplate get templateName s).2
  = gets s ++ match templateCache s !! templateName with
              | Some _ => []
              | None => [urlOf templateName]
              end.
Proof.
  unfold fetchTemplate. destruct (templateCache s !! templateName).
  - by rewrite app_nil_r.
  - by destruct (get _).
Qed.

Lemma fetchTemplate_requests get templateName s r s' :
  fetchTemplate get templateName s = (r, s') →
  ∃ urls, gets s' = gets s ++ urls ∧ urls `sublist_of` [urlOf templateName].
Proof.
  intros Hfetch. pose proof (fetchTemplate_gets get templateName s) as Hgets.
  rewrite Hfetch in Hgets. eexists. split; [exact Hgets |].
  destruct (templateCache s !! templateName); [apply sublist_nil_l | reflexivity].
Qed.

Lemma fetchTemplate_miss get templateName s content :
  templateCache s !! templateName = None → get (urlOf templateName) = Some content →
  fetchTemplate get templateName s
  = (Fetched content,
     {| templateCache := <[templateName := content]> (templateCache s);
        gets := gets s ++ [urlOf templateName] |}).
Proof. intros Hmiss Hget. unfold fetchTemplate. by rewrite Hmiss, Hget. Qed.

End Templates.

(** X18: a template that was fetched once is answered from the cache
    afterwards: the next call returns the same content, requests nothing
    and leaves the service as it is, whatever the network does then. *)
Theorem fetched_template_is_cached
    (get get' : string → option string) (templateName content : string)
    (s s' : SpecKit.Service) :
  SpecKit.fetchTemplate get templateName s = (SpecKit.Fetched content, s') →
  SpecKit.fetchTemplate get' templateName s' = (SpecKit.Fetched content, s').
Proof. intros Hfetched. eapply fetchTemplate_hit, fetchTemplate_Fetched, Hfetched. Qed.

Lemma fetched_template_is_cached_witness :
  let first := SpecKit.fetchTemplate Cases.online "plan-template.md" Cases.fresh in
  SpecKit.fetchTemplate Cases.offline "plan-template.md" first.2 = first.
Proof.
  exact (fetched_template_is_cached Cases.online Cases.offline "plan-template.md" _
           Cases.fresh _ eq_refl).
Defined.

(** X19: a fetch that fails has requested the url of the template, names
    the template in its error and caches nothing, so the next call
    requests the same url again. *)
Theorem failed_fetch_is_retried
    (get get' : string → option string) (templateName name : string)
    (s s' : SpecKit.Service) :
  SpecKit.fetchTemplate get templateName s = (SpecKit.CouldNotFetch name, s') →
  name = templateName ∧
  SpecKit.templateCache s' = SpecKit.templateCache s ∧
  SpecKit.gets s' = SpecKit.gets s ++ [SpecKit.urlOf templateName] ∧
  SpecKit.gets (SpecKit.fetchTemplate get' templateName s').2
  = SpecKit.gets s ++ [SpecKit.urlOf templateName; SpecKit.urlOf templateName].
Proof.
  intros (-> & Hmiss & Hcache & Hgets)%fetchTemplate_CouldNotFetch. repeat split; [done.. |].
  rewrite fetchTemplate_gets, Hcache, Hmiss, Hgets. by rewrite <- app_assoc.
Qed.

Lemma failed_fetch_is_retried_witness :
  let s' := (SpecKit.fetchTemplate Cases.offline "plan-template.md" Cases.fresh).2 in
  "plan-template.md" = "plan-template.md" ∧
  SpecKit.templateCache s' = SpecKit.templateCache Cases.fresh ∧
  SpecKit.gets s' = SpecKit.gets Cases.fresh ++ [SpecKit.urlOf "plan-template.md"] ∧
  SpecKit.gets (SpecKit.fetchTemplate Cases.online "plan-template.md" s').2
  = SpecKit.gets Cases.fresh
    ++ [SpecKit.urlOf "plan-template.md"; SpecKit.urlOf "plan-template.md"].
Proof.
  exact (failed_fetch_is_retried Cases.offline Cases.online "plan-template.md" _
           Cases.fresh _ eq_refl).
Defined.

(** X20: once all four templates were fetched, fetching them again
    returns the same set without any request, whatever the network does
    then. *)
Theorem all_templates_cached_afterwards
    (get get' : string → option string) (templates : SpecKit.TemplateSet)
    (s s' : SpecKit.Service) :
  SpecKit.fetchAllTemplates get s = (SpecKit.Fetched templates, s') →
  SpecKit.fetchAllTemplates get' s' = (SpecKit.Fetched templates, s').
Proof.
  unfold SpecKit.fetchAllTemplates, SpecKit.andThen.
  destruct (SpecKit.fetchTemplate get "spec-template.md" s) as [[spec|] s1] eqn:H1; [|done].
  destruct (SpecKit.fetchTemplate get "plan-template.md" s1) as [[plan|] s2] eqn:H2; [|done].
  destruct (SpecKit.fetchTemplate get "tasks-template.md" s2) as [[tasks|] s3] eqn:H3; [|done].
  destruct (SpecKit.fetchTemplate get "implement-template.md" s3) as [[implement|] s4] eqn:H4;
    [|done].
  intros [= <- <-].
  pose proof (fetchTemplate_cache_kept _ _ _ _ _ H2) as G2.
  pose proof (fetchTemplate_cache_kept _ _ _ _ _ H3) as G3.
  pose proof (fetchTemplate_cache_kept _ _ _ _ _ H4) as G4.
  apply fetchTemplate_Fetched in H1, H2, H3, H4.
  rewrite (fetchTemplate_hit get' _ s4 spec)
    by (do 3 (eapply lookup_weaken; [|eassumption]); done).
  rewrite (fetchTemplate_hit get' _ s4 plan)
    by (do 2 (eapply lookup_weaken; [|eassumption]); done).
  rewrite (fetchTemplate_hit get' _ s4 tasks)
    by (eapply lookup_weaken; [|eassumption]; done).
  by rewrite (fetchTemplate_hit get' _ s4 implement).
Qed.

Lemma all_templates_cached_afterwards_witness :
  let first := SpecKit.fetchAllTemplates Cases.online Cases.fresh in
  SpecKit.fetchAllTemplates Cases.offline first.2 = first.
Proof.
  exact (all_templates_cached_afterwards Cases.online Cases.offline _ Cases.fresh _ eq_refl).
Defined.

(** X21: when fetching all templates fails, the error names one of the
    four templates, the last request was for that template, nothing was
    requested for the templates after it, and what was cached before or
    during the call stays cached. *)
Theorem all_templates_stop_at_first_failure
    (get : string → option string) (name : string) (s s' : SpecKit.Service) :
  SpecKit.fetchAllTemplates get s = (SpecKit.CouldNotFetch name, s') →
  ∃ before after,
    SpecKit.tpl_name <$> SpecKit.getAvailableTemplates = before ++ name :: after ∧
    (∃ earlier, SpecKit.gets s' = SpecKit.gets s ++ earlier ++ [SpecKit.urlOf name] ∧
                earlier `sublist_of` (SpecKit.urlOf <$> before)) ∧
    SpecKit.templateCache s ⊆ SpecKit.templateCache s' ∧
    (∀ n, n ∈ before → is_Some (SpecKit.templateCache s' !! n)) ∧
    SpecKit.templateCache s' !! name = None.
Proof.
  unfold SpecKit.fetchAllTemplates, SpecKit.andThen.
  destruct (SpecKit.fetchTemplate get "spec-template.md" s) as [[spec|n1] s1] eqn:H1.
  2:{ intros [= <- <-]. apply fetchTemplate_CouldNotFetch in H1 as (-> & Hmiss & Hc & Hg).
      exists [], ["plan-template.md"; "tasks-template.md"; "implement-template.md"].
      split; [reflexivity |]. split; [by exists [] |]. rewrite Hc.
      split; [reflexivity |]. split; [|exact Hmiss]. by intros n ?%elem_of_nil. }
  pose proof (fetchTemplate_cache_kept _ _ _ _ _ H1) as G1.
  destruct (fetchTemplate_requests _ _ _ _ _ H1) as (e1 & Hg1 & S1).
  apply fetchTemplate_Fetched in H1.
  destruct (SpecKit.fetchTemplate get "plan-template.md" s1) as [[plan|n2] s2] eqn:H2.
  2:{ intros [= <- <-].
      apply fetchTemplate_CouldNotFetch in H2 as (-> & Hmiss & Hc & Hg).
      exists ["spec-template.md"], ["tasks-template.md"; "implement-template.md"].
      split; [reflexivity |]. rewrite Hc, Hg, Hg1.
      split; [|split; [exact G1 |]; split; [|exact Hmiss]].
      - exists e1. split; [|exact S1]. by rewrite <- app_assoc.
      - intros n ->%list_elem_of_singleton. exists spec. exact H1. }
  pose proof (fetchTemplate_cache_kept _ _ _ _ _ H2) as G2.
  destruct (fetchTemplate_requests _ _ _ _ _ H2) as (e2 & Hg2 & S2).
  apply fetchTemplate_Fetched in H2.
  destruct (SpecKit.fetchTemplate get "tasks-template.md" s2) as [[tasks|n3] s3] eqn:H3.
  2:{ intros [= <- <-].
      apply fetchTemplate_CouldNotFetch in H3 as (-> & Hmiss & Hc & Hg).
      exists ["spec-template.md"; "plan-template.md"], ["implement-template.md"].
      split; [reflexivity |]. rewrite Hc, Hg, Hg2, Hg1.
      split; [|split; [etrans; [exact G1 | exact G2] |]; split; [|exact Hmiss]].
      - exists (e1 ++ e2). split; [by rewrite <- !app_assoc |].
        exact (sublist_app _ _ _ _ S1 S2).
      - intros n [->| ->%list_elem_of_singleton]%elem_of_cons.
        + exists spec. exact (lookup_weaken _ _ _ _ H1 G2).
        + exists plan. exact H2. }
  pose proof (fetchTemplate_cache_kept _ _ _ _ _ H3) as G3.
  destruct (fetchTemplate_requests _ _ _ _ _ H3) as (e3 & Hg3 & S3).
  apply fetchTemplate_Fetched in H3.
  destruct (SpecKit.fetchTemplate get "implement-template.md" s3) as [[implement|n4] s4] eqn:H4;
    [discriminate |].
  intros [= <- <-].
  apply fetchTemplate_CouldNotFetch in H4 as (-> & Hmiss & Hc & Hg).
  exists ["spec-template.md"; "plan-template.md"; "tasks-template.md"], [].
  split; [reflexivity |]. rewrite Hc, Hg, Hg3, Hg2, Hg1.
  split; [|split; [etrans; [exact G1 | etrans; [exact G2 | exact G3]] |];
           split; [|exact Hmiss]].
  - exists (e1 ++ e2 ++ e3). split; [by rewrite <- !app_assoc |].
    exact (sublist_app _ _ _ _ S1 (sublist_app _ _ _ _ S2 S3)).
  - intros n [->|[->| ->%list_elem_of_singleton]%elem_of_cons]%elem_of_cons.
    + exists spec. exact (lookup_weaken _ _ _ _ (lookup_weaken _ _ _ _ H1 G2) G3).
    + exists plan. exact (lookup_weaken _ _ _ _ H2 G3).
    + exists tasks. exact H3.
Qed.

Lemma all_templates_stop_at_first_failure_witness :
  ∃ before after,
    SpecKit.tpl_name <$> SpecKit.getAvailableTemplates
    = before ++ "plan-template.md" :: after ∧
    (∃ earlier,
       SpecKit.gets (SpecKit.fetchAllTemplates Cases.planMissing Cases.fresh).2
       = SpecKit.gets Cases.fresh ++ earlier ++ [SpecKit.urlOf "plan-template.md"] ∧
       earlier `sublist_of` (SpecKit.urlOf <$> before)) ∧
    SpecKit.templateCache Cases.fresh
    ⊆ SpecKit.templateCache (SpecKit.fetchAllTemplates Cases.planMissing Cases.fresh).2 ∧
    (∀ n, n ∈ before →
       is_Some (SpecKit.templateCache
                  (SpecKit.fetchAllTemplates Cases.planMissing Cases.fresh).2 !! n)) ∧
    SpecKit.templateCache (SpecKit.fetchAllTemplates Cases.planMissing Cases.fresh).2
      !! "plan-template.md" = None.
Proof.
  exact (all_templates_stop_at_first_failure Cases.planMissing "plan-template.md"
           Cases.fresh _ eq_refl).
Defined.

(** X22: the initial constitution is built from the spec template, the
    one the initial specification is built from: after the specification
    was generated, generating the constitution requests nothing and puts
    its own header before the same template. *)
Theorem initial_contents_share_template
    (get get' : string → option string) (content : string) (s s' : SpecKit.Service) :
  SpecKit.generateInitialSpecifyContent get s = (SpecKit.Fetched content, s') →
  ∃ template,
    content = SpecKit.specifyHeader +:+ template ∧
    SpecKit.generateInitialConstitutionContent get' s'
    = (SpecKit.Fetched (SpecKit.constitutionHeader +:+ template), s').
Proof.
  unfold SpecKit.generateInitialSpecifyContent, SpecKit.generateInitialConstitutionContent,
    SpecKit.andThen, SpecKit.getSpecTemplate.
  destruct (SpecKit.fetchTemplate get "spec-template.md" s) as [[template|] s1] eqn:Hfetch;
    [|discriminate].
  intros [= <- <-]. exists template. split; [reflexivity |].
  by rewrite (fetchTemplate_hit get' _ _ _ (fetchTemplate_Fetched get _ _ _ _ Hfetch)).
Qed.

Lemma initial_contents_share_template_witness :
  ∃ template,
    (SpecKit.generateInitialSpecifyContent Cases.online Cases.fresh).1
    = SpecKit.Fetched (SpecKit.specifyHeader +:+ template) ∧
    SpecKit.generateInitialConstitutionContent Cases.offline
      (SpecKit.generateInitialSpecifyContent Cases.online Cases.fresh).2
    = (SpecKit.Fetched (SpecKit.constitutionHeader +:+ template),
       (SpecKit.generateInitialSpecifyContent Cases.online Cases.fresh).2).
Proof.
  destruct (initial_contents_share_template Cases.online Cases.offline _ Cases.fresh _ eq_refl)
    as (template & Hcontent & Hconstitution).
  exists template. split; [|exact Hconstitution]. cbn [fst]. by rewrite <- Hcontent.
Defined.

(** X23: after the cache was cleared, fetching all templates on a network
    that answers for every listed template requests exactly the urls of
    the listed templates, in their order, and returns what the network
    answered. *)
Theorem cleared_cache_refetches_listed_urls
    (get : string → option string) (s : SpecKit.Service) :
  Forall (λ t, is_Some (get (SpecKit.tpl_url t))) SpecKit.getAvailableTemplates →
  ∃ templates s',
    SpecKit.fetchAllTemplates get (SpecKit.clearCache s) = (SpecKit.Fetched templates, s') ∧
    SpecKit.gets s' = SpecKit.gets s ++ (SpecKit.tpl_url <$> SpecKit.getAvailableTemplates) ∧
    get <$> (SpecKit.tpl_url <$> SpecKit.getAvailableTemplates)
    = Some <$> [ SpecKit.spec_template templates; SpecKit.plan_template templates;
                 SpecKit.tasks_template templates; SpecKit.implement_template templates ].
Proof.
  unfold SpecKit.getAvailableTemplates. cbn [fmap list_fmap SpecKit.tpl_url].
  intros ([spec Hspec] & ([plan Hplan] & ([tasks Htasks] & ([implement Himplement] & _)
    %Forall_cons) %Forall_cons) %Forall_cons) %Forall_cons.
  cbn [SpecKit.tpl_url] in Hspec, Hplan, Htasks, Himplement.
  do 2 eexists. unfold SpecKit.fetchAllTemplates, SpecKit.andThen.
  rewrite (fetchTemplate_miss get _ _ spec) by (exact Hspec || reflexivity).
  rewrite (fetchTemplate_miss get _ _ plan) by (exact Hplan || reflexivity).
  rewrite (fetchTemplate_miss get _ _ tasks) by (exact Htasks || reflexivity).
  rewrite (fetchTemplate_miss get _ _ implement) by (exact Himplement || reflexivity).
  split; [reflexivity |]. cbn [SpecKit.gets SpecKit.clearCache].
  split; [by rewrite <- !app_assoc |].
  cbn [SpecKit.spec_template SpecKit.plan_template SpecKit.tasks_template
       SpecKit.implement_template].
  by rewrite Hspec, Hplan, Htasks, Himplement.
Qed.

Lemma cleared_cache_refetches_listed_urls_witness :
  ∃ templates s',
    SpecKit.fetchAllTemplates Cases.online
      (SpecKit.clearCache (SpecKit.fetchAllTemplates Cases.online Cases.fresh).2)
    = (SpecKit.Fetched templates, s') ∧
    SpecKit.gets s'
    = SpecKit.gets (SpecKit.fetchAllTemplates Cases.online Cases.fresh).2
      ++ (SpecKit.tpl_url <$> SpecKit.getAvailableTemplates) ∧
    Cases.online <$> (SpecKit.tpl_url <$> SpecKit.getAvailableTemplates)
    = Some <$> [ SpecKit.spec_template templates; SpecKit.plan_template templates;
                 SpecKit.tasks_template templates; SpecKit.implement_template templates ].
Proof.
  apply (cleared_cache_refetches_listed_urls Cases.online).
  repeat constructor; by eexists.
Defined.
